(** * Round-trip testing of a LaTeX printer against a LaTeX parser

    A shallow embedding of the notebook that generates random symbolic
    expressions with Hypothesis strategies, prints them with
    [sympy.latex], typesets the markup with [pdflatex] and compares what
    [parse_latex] gives back with the original expression.

    The three external collaborators are modelled as follows.

    - The symbolic library (sympy).  The notebook never looks inside an
      expression: it builds expressions through constructor calls and
      observes them through [S.latex], [==] and truth testing only.  An
      expression is therefore represented by the constructor call that
      built it ([Expr]), and everything the library decides (whether a
      call raises, what the markup is, which expressions are equal or
      truthy) is a field of the environment [Env].
    - The generation framework (Hypothesis).  A strategy is a function
      of a state whose first component is the sequence of choices the
      engine feeds to the draw; [assume] failing is the outcome [Reject].
    - The file system and the compiler.  The state records the live
      temporary directories; the outcome of writing, compiling and
      reading is given by the environment. *)

From Stdlib Require Import ZArith List String Ascii Bool Lia.
Import ListNotations.

Set Implicit Arguments.

(** ** Python results *)

(** An exception instance: its class name and its message.  Every error
    of the model is an instance of Python's [Exception]; interrupts of
    the interpreter ([KeyboardInterrupt], [SystemExit]) are not
    modelled, so [except:] and [except Exception] catch the same
    errors. *)
Inductive Exn : Type :=
| Exception (cls : string) (msg : string).

(** What a call into a library gives: a value or a raised exception. *)
Inductive PyResult (A : Type) : Type :=
| Returned (a : A)
| Raised (e : Exn).
Arguments Returned {A} a.
Arguments Raised {A} e.

(** ** Expressions *)

(** The entries of the four operator tables. *)
Inductive UnaryOp : Type :=
| S_sin | S_tan | S_cos | S_acos | S_sec | S_atan | S_asec | S_csc
| S_Abs | S_sqrt | S_factorial.

Inductive BinaryOp : Type :=
| S_Add | S_Mul | S_Pow | S_Rational | S_root | S_Derivative.

Inductive TernaryOp : Type :=
| S_Limit.

Inductive Comparator : Type :=
| ops_gt | ops_ge | ops_lt | ops_le | ops_eq | ops_ne.

(** A Python float, as the bit pattern of an IEEE binary64. *)
Definition PyFloat : Type := Z.

(** An expression, as the constructor call that built it.  The flag
    [evaluate] is [false] for a call with [evaluate=False] and [true]
    for a call without the keyword. *)
Inductive Expr : Type :=
| Float (f : PyFloat) (prec : Z)
| Symbol (name : string)
| Unary (op : UnaryOp) (a : Expr) (evaluate : bool)
| Binary (op : BinaryOp) (a b : Expr) (evaluate : bool)
| Ternary (op : TernaryOp) (a b c : Expr) (evaluate : bool)
| Relational (op : Comparator) (a b : Expr) (evaluate : bool).
Arguments Float f%_Z prec%_Z.

Definition UnaryOp_eq_dec (x y : UnaryOp) : {x = y} + {x <> y}.
Proof. decide equality. Defined.

Definition BinaryOp_eq_dec (x y : BinaryOp) : {x = y} + {x <> y}.
Proof. decide equality. Defined.

Definition TernaryOp_eq_dec (x y : TernaryOp) : {x = y} + {x <> y}.
Proof. decide equality. Defined.

Definition Comparator_eq_dec (x y : Comparator) : {x = y} + {x <> y}.
Proof. decide equality. Defined.

(** The operands of the outermost call of an expression. *)
Definition operands (e : Expr) : list Expr :=
  match e with
  | Float _ _ | Symbol _ => []
  | Unary _ a _ => [a]
  | Binary _ a b _ => [a; b]
  | Ternary _ a b c _ => [a; b; c]
  | Relational _ a b _ => [a; b]
  end.

(** Every expression that occurs strictly inside [e], at any depth. *)
Fixpoint inner_operands (e : Expr) : list Expr :=
  match e with
  | Float _ _ | Symbol _ => []
  | Unary _ a _ => a :: inner_operands a
  | Binary _ a b _ => a :: inner_operands a ++ b :: inner_operands b
  | Ternary _ a b c _ =>
      a :: inner_operands a ++ b :: inner_operands b ++ c :: inner_operands c
  | Relational _ a b _ => a :: inner_operands a ++ b :: inner_operands b
  end.

Definition is_relational (e : Expr) : bool :=
  match e with
  | Relational _ _ _ _ => true
  | _ => false
  end.

(** No comparator was applied anywhere in the construction of [e]. *)
Fixpoint relation_free (e : Expr) : bool :=
  match e with
  | Float _ _ | Symbol _ => true
  | Unary _ a _ => relation_free a
  | Binary _ a b _ => relation_free a && relation_free b
  | Ternary _ a b c _ => relation_free a && relation_free b && relation_free c
  | Relational _ _ _ _ => false
  end.

(** ** The environment: sympy, the parser under test, the toolchain *)

(** [class PointlessPDFWrapper]: the bytes of a compiled document. *)
Record PointlessPDFWrapper : Type := mkPDF { _pdf : string }.

(** A temporary directory, named by the number [mkdtemp] gave it. *)
Definition Dir : Type := nat.

Record Env : Type := mkEnv {
  (** [Some x] when the outermost constructor call of the expression
      raises [x] on operands that were themselves built *)
  raises : Expr -> option Exn;
  (** [S.latex(expr)] *)
  S_latex : Expr -> PyResult string;
  (** the truth value of an expression, as [assume(expr)] tests it *)
  truth : Expr -> PyResult bool;
  (** [expr == other] between two expressions *)
  expr_equal : Expr -> Expr -> bool;
  (** [parse_latex(latex_str)], the parser under test *)
  parse_latex : string -> PyResult Expr;
  (** writing the document to [expr.tex] in the directory *)
  write_tex : Dir -> string -> PyResult unit;
  (** [subprocess.check_call(["pdflatex", tmp_tex_path], cwd=tmpdir)] *)
  pdflatex : Dir -> string -> PyResult unit;
  (** reading [expr.pdf] from the directory *)
  read_pdf : Dir -> string -> PyResult string
}.

(** ** Strategies *)

(** The state a draw runs in: the choices still to be consumed, the
    temporary directories that exist, and the next directory number. *)
Record State : Type := mkState {
  choices : list Z;
  live_dirs : list Dir;
  next_dir : Dir
}.

Inductive Outcome (A : Type) : Type :=
| Ok (a : A)
| Reject            (* [assume] failed: the engine discards the draw *)
| Raise (e : Exn)   (* an exception leaves the strategy *)
| Overrun           (* the choice sequence is exhausted *)
| OutOfFuel.        (* the recursion bound of the model was reached *)
Arguments Ok {A} a.
Arguments Reject {A}.
Arguments Raise {A} e.
Arguments Overrun {A}.
Arguments OutOfFuel {A}.

Definition Strategy (A : Type) : Type := State -> Outcome A * State.

Definition ret {A} (a : A) : Strategy A := fun st => (Ok a, st).

(** [draw(s)] followed by the rest of a composite strategy. *)
Definition bind {A B} (s : Strategy A) (k : A -> Strategy B) : Strategy B :=
  fun st =>
    match s st with
    | (Ok a, st') => k a st'
    | (Reject, st') => (Reject, st')
    | (Raise e, st') => (Raise e, st')
    | (Overrun, st') => (Overrun, st')
    | (OutOfFuel, st') => (OutOfFuel, st')
    end.

Declare Scope strategy_scope.
Delimit Scope strategy_scope with strategy.
Notation "x <- s ;; k" := (bind s (fun x => k))
  (at level 100, s at next level, right associativity) : strategy_scope.
Notation "' p <- s ;; k" := (bind s (fun x => let p := x in k))
  (at level 100, p pattern, s at next level, right associativity) : strategy_scope.
Local Open Scope strategy_scope.

(** [assume(False)]: raises [UnsatisfiedAssumption], never returns. *)
Definition assume_False {A} : Strategy A := fun st => (Reject, st).

(** [assume(condition)] *)
Definition assume (condition : bool) : Strategy unit :=
  if condition then ret tt else assume_False.

(** The next choice of the sequence. *)
Definition next_choice : Strategy Z :=
  fun st =>
    match choices st with
    | [] => (Overrun, st)
    | c :: rest => (Ok c, mkState rest (live_dirs st) (next_dir st))
    end.

(** [st.integers(min_value, max_value)]: both bounds are inclusive. *)
Definition integers (min_value max_value : Z) : Strategy Z :=
  c <- next_choice ;;
  ret (min_value + c mod (max_value - min_value + 1))%Z.

(** [st.floats()]: any of the 2^64 bit patterns. *)
Definition st_floats : Strategy PyFloat :=
  c <- next_choice ;;
  ret (c mod 2 ^ 64)%Z.

(** The element of [elements] a choice selects. *)
Definition pick {A} (elements : list A) (c : Z) : option A :=
  nth_error elements (Z.to_nat (c mod Z.of_nat (List.length elements))).
Arguments pick {A} elements c%_Z.

(** [st.sampled_from(elements)]: every position of the list is as
    likely as any other.  For a list of one element Hypothesis returns
    [just] of that element, which consumes no choice. *)
Definition sampled_from {A} (elements : list A) : Strategy A :=
  match elements with
  | [x] => ret x
  | _ =>
      c <- next_choice ;;
      match pick elements c with
      | Some x => ret x
      | None => assume_False
      end
  end.

(** [st.one_of] over a list of strategies, also written [s1 | s2]. *)
Definition one_of {A} (strategies : list (Strategy A)) : Strategy A :=
  c <- next_choice ;;
  match pick strategies c with
  | Some s => s
  | None => assume_False
  end.

(** ** Operator tables *)

Definition ascii_letters : list string :=
  ["a"; "b"; "c"; "d"; "e"; "f"; "g"; "h"; "i"; "j"; "k"; "l"; "m";
   "n"; "o"; "p"; "q"; "r"; "s"; "t"; "u"; "v"; "w"; "x"; "y"; "z";
   "A"; "B"; "C"; "D"; "E"; "F"; "G"; "H"; "I"; "J"; "K"; "L"; "M";
   "N"; "O"; "P"; "Q"; "R"; "S"; "T"; "U"; "V"; "W"; "X"; "Y"; "Z"]%string.

(** [st.from_regex(re.compile(r"\A[a-z]\Z", re.IGNORECASE))]: one ASCII
    letter of either case. *)
Definition _variable_names : Strategy string := sampled_from ascii_letters.

(** The list given to [st.sampled_from] in [_numeric_unary_ops]. *)
Definition _numeric_unary_ops_elements : list UnaryOp :=
  [S_sin; S_tan; S_cos; S_acos; S_sec; S_acos; S_atan; S_asec;
   S_csc;
   S_Abs; S_sqrt; S_factorial].

Definition _numeric_unary_ops : Strategy UnaryOp :=
  sampled_from _numeric_unary_ops_elements.

Definition _numeric_binary_ops_elements : list BinaryOp :=
  [S_Add; S_Mul; S_Pow; S_Rational;
   S_root; S_Derivative].

Definition _numeric_binary_ops : Strategy BinaryOp :=
  sampled_from _numeric_binary_ops_elements.

Definition _numeric_ternary_ops_elements : list TernaryOp :=
  [S_Limit].

Definition _numeric_ternary_ops : Strategy TernaryOp :=
  sampled_from _numeric_ternary_ops_elements.

Definition _comparators_elements : list Comparator :=
  [ops_gt; ops_ge; ops_lt; ops_le; ops_eq; ops_ne].

Definition _comparators : Strategy Comparator :=
  sampled_from _comparators_elements.

(** ** The document template *)

Definition newline : string := String (ascii_of_nat 10) EmptyString.

(** The part of [LATEX_DOC] before [%s]. *)
Definition LATEX_DOC_head : string :=
  (newline ++ "\documentclass[a4paper]{article}" ++ newline
   ++ " " ++ newline
   ++ "\begin{document}" ++ newline
   ++ "$$" ++ newline)%string.

(** The part of [LATEX_DOC] after [%s]. *)
Definition LATEX_DOC_tail : string :=
  (newline ++ "$$" ++ newline
   ++ "\end{document}" ++ newline)%string.

(** [LATEX_DOC % latex_str] *)
Definition LATEX_DOC (latex_str : string) : string :=
  (LATEX_DOC_head ++ latex_str ++ LATEX_DOC_tail)%string.

(** ** Temporary directories *)

(** [mkdtemp()]: a directory that did not exist before.  The call is
    taken to succeed; in the notebook it stands before the [try] block,
    so an error of it would leave the strategy. *)
Definition mkdtemp : Strategy Dir :=
  fun st =>
    (Ok (next_dir st),
     mkState (choices st) (next_dir st :: live_dirs st) (S (next_dir st))).

(** [shutil.rmtree(tmpdir)], by its contract: the directory is gone
    afterwards.  The call is taken to succeed; in the notebook it stands
    in the [finally] block, so an error of it would leave the
    strategy. *)
Definition rmtree (tmpdir : Dir) : Strategy unit :=
  fun st =>
    (Ok tt,
     mkState (choices st)
             (filter (fun d => negb (Nat.eqb d tmpdir)) (live_dirs st))
             (next_dir st)).

(** Sequencing of library calls inside one [try] block: the first
    exception ends the block. *)
Definition and_then {A B} (r : PyResult A) (k : A -> PyResult B) : PyResult B :=
  match r with
  | Returned a => k a
  | Raised x => Raised x
  end.

(** ** The generation pipeline *)

Section Pipeline.

Variable env : Env.

(** A constructor call of the library. *)
Definition call (e : Expr) : PyResult Expr :=
  match raises env e with
  | Some x => Raised x
  | None => Returned e
  end.

(** [ops(a, b)]: [ops] is the module [operator], and a module is not
    callable. *)
Definition ops_module_call (a b : Expr) : PyResult Expr :=
  Raised (Exception "TypeError" "'module' object is not callable").

(** [floats]: a literal with a drawn value and a drawn precision. *)
Definition floats : Strategy Expr :=
  f <- st_floats ;;
  prec <- integers 1 35 ;;
  match call (Float f prec) with
  | Returned e => ret e
  | Raised _ => assume_False
  end.

(** [symbols]: the constructor call is not inside a [try]. *)
Definition symbols : Strategy Expr :=
  name <- _variable_names ;;
  match call (Symbol name) with
  | Returned e => ret e
  | Raised x => fun st => (Raise x, st)
  end.

(** [numeric_unary_expressions].  The operand strategy is the deferred
    reference [numeric_expressions], resolved when the draw happens. *)
Definition numeric_unary_expressions (numeric_expressions : Strategy Expr)
  : Strategy Expr :=
  op <- _numeric_unary_ops ;;
  a <- numeric_expressions ;;
  match call (Unary op a false) with
  | Returned e => ret e
  | Raised _ =>
      match call (Unary op a true) with
      | Returned e => ret e
      | Raised _ => assume_False
      end
  end.

(** [numeric_binary_expressions]: the second attempt calls [ops], not
    [op]. *)
Definition numeric_binary_expressions (numeric_expressions : Strategy Expr)
  : Strategy Expr :=
  op <- _numeric_binary_ops ;;
  a <- numeric_expressions ;;
  b <- numeric_expressions ;;
  match call (Binary op a b false) with
  | Returned e => ret e
  | Raised _ =>
      match ops_module_call a b with
      | Returned e => ret e
      | Raised _ => assume_False
      end
  end.

(** [numeric_ternary_expressions] *)
Definition numeric_ternary_expressions (numeric_expressions : Strategy Expr)
  : Strategy Expr :=
  op <- _numeric_ternary_ops ;;
  a <- numeric_expressions ;;
  b <- numeric_expressions ;;
  c <- numeric_expressions ;;
  match call (Ternary op a b c false) with
  | Returned e => ret e
  | Raised _ =>
      match call (Ternary op a b c true) with
      | Returned e => ret e
      | Raised _ => assume_False
      end
  end.

(** [numeric_expressions], the deferred strategy, with every name it
    mentions defined: the five [try] blocks that collect the branches
    all succeed.  [fuel] bounds the depth of the recursion. *)
Fixpoint numeric_expressions (fuel : nat) : Strategy Expr :=
  match fuel with
  | O => fun st => (OutOfFuel, st)
  | S fuel' =>
      one_of [floats;
              symbols;
              numeric_unary_expressions (numeric_expressions fuel');
              numeric_binary_expressions (numeric_expressions fuel');
              numeric_ternary_expressions (numeric_expressions fuel')]
  end.

(** [relational_expressions] *)
Definition relational_expressions (numeric_expressions : Strategy Expr)
  : Strategy Expr :=
  op <- _comparators ;;
  a <- numeric_expressions ;;
  b <- numeric_expressions ;;
  match call (Relational op a b false) with
  | Returned e => ret e
  | Raised _ =>
      match call (Relational op a b true) with
      | Returned e => ret e
      | Raised _ => assume_False
      end
  end.

(** [latex_printable_expressions]: [latex_str] stays [None] when
    [S.latex] raises, and the draw goes on when it [is not None]. *)
Definition latex_printable_expressions (fuel : nat) : Strategy (Expr * string) :=
  expr <- one_of [numeric_expressions fuel;
                  relational_expressions (numeric_expressions fuel)] ;;
  let latex_str :=
    match S_latex env expr with
    | Returned s => Some s
    | Raised _ => None
    end in
  match latex_str with
  | None => assume_False
  | Some s => ret (expr, s)
  end.

(** The body of the [try] block of [typesettable_expressions]. *)
Definition typeset (tmpdir : Dir) (latex_str : string)
  : PyResult PointlessPDFWrapper :=
  and_then (write_tex env tmpdir (LATEX_DOC latex_str)) (fun _ =>
  and_then (pdflatex env tmpdir (LATEX_DOC latex_str)) (fun _ =>
  and_then (read_pdf env tmpdir (LATEX_DOC latex_str)) (fun bytes =>
  Returned (mkPDF bytes)))).

(** [typesettable_expressions].  [success] and [pdf] start as [None];
    both are set only when the whole [try] block ran. *)
Definition typesettable_expressions (fuel : nat)
  : Strategy (Expr * string * option PointlessPDFWrapper) :=
  ' (expr, latex_str) <- latex_printable_expressions fuel ;;
  tmpdir <- mkdtemp ;;
  let '(success, pdf) :=
    match typeset tmpdir latex_str with
    | Returned wrapped => (true, Some wrapped)
    | Raised _ => (false, None)
    end in
  _ <- rmtree tmpdir ;;
  _ <- assume success ;;
  ret (expr, latex_str, pdf).

(** ** The test *)

Definition FailureReport : Type :=
  (Expr * option Expr * string * option PointlessPDFWrapper)%type.

Inductive TestResult : Type :=
| Passes                      (* the test function returned *)
| Discarded                   (* [assume] failed inside the test *)
| Fails (report : FailureReport)  (* [ValueError] with the report *)
| Crashes (e : Exn).          (* another exception left the test *)

(** [expr == expr_parsed], where [expr_parsed] may be [None]. *)
Definition equal_to_parsed (expr : Expr) (expr_parsed : option Expr) : bool :=
  match expr_parsed with
  | Some parsed => expr_equal env expr parsed
  | None => false
  end.

(** The body of [test_latex_roundtrip].  The second component lists the
    strings the parser was called on. *)
Definition test_latex_roundtrip
  (expr_latex_pdf : Expr * string * option PointlessPDFWrapper)
  : TestResult * list string :=
  let '(expr, latex_str, pdf) := expr_latex_pdf in
  match truth env expr with
  | Raised x => (Crashes x, [])
  | Returned false => (Discarded, [])
  | Returned true =>
      let expr_parsed :=
        match parse_latex env latex_str with
        | Returned parsed => Some parsed
        | Raised _ => None
        end in
      if equal_to_parsed expr expr_parsed
      then (Passes, [latex_str])
      else (Fails (expr, expr_parsed, latex_str, pdf), [latex_str])
  end.

(** One example of [@given(typesettable_expressions())]: draw a case
    from a choice sequence, then run the test body on it. *)
Definition run_example (cs : list Z) (st : State) : TestResult * State :=
  match typesettable_expressions (S (List.length cs))
          (mkState cs (live_dirs st) (next_dir st)) with
  | (Ok case, st') => (fst (test_latex_roundtrip case), st')
  | (Raise x, st') => (Crashes x, st')
  | (_, st') => (Discarded, st')
  end.

(** What a run of the test reports. *)
Inductive RunResult : Type :=
| NoFailure (passed : nat)
| Falsified (report : FailureReport)
| Errored (e : Exn).

(** The engine: examples are tried in turn, a discarded one is replaced
    by the next, the first failure ends the run. *)
Fixpoint given (examples : list (list Z)) (passed : nat) (st : State)
  : RunResult :=
  match examples with
  | [] => NoFailure passed
  | cs :: rest =>
      match run_example cs st with
      | (Passes, st') => given rest (S passed) st'
      | (Discarded, st') => given rest passed st'
      | (Fails report, _) => Falsified report
      | (Crashes x, _) => Errored x
      end
  end.

End Pipeline.

(** ** A small library and toolchain to run the pipeline on *)

Definition Expr_eq_dec (x y : Expr) : {x = y} + {x <> y}.
Proof.
  decide equality;
    auto using Z.eq_dec, string_dec, bool_dec, UnaryOp_eq_dec,
      BinaryOp_eq_dec, TernaryOp_eq_dec, Comparator_eq_dec.
Defined.

Definition Expr_eqb (x y : Expr) : bool :=
  if Expr_eq_dec x y then true else false.

Module Demo.

(** Constructor calls that raise: [Rational] and [root] take no
    [evaluate] keyword, nor do the functions of [operator]; a [Float]
    needs a finite value (exponent bits not all set). *)
Definition raises (e : Expr) : option Exn :=
  match e with
  | Binary S_Rational _ _ false | Binary S_root _ _ false
  | Relational _ _ _ false =>
      Some (Exception "TypeError" "unexpected keyword argument 'evaluate'")
  | Float f _ =>
      if Z.eqb (Z.land (Z.shiftr f 52) 2047) 2047
      then Some (Exception "ValueError" "not a finite number")
      else None
  | _ => None
  end.

(** A printer: symbols print as their name, sums infix, a comparison
    with [<]; everything else is refused. *)
Fixpoint S_latex (e : Expr) : PyResult string :=
  match e with
  | Symbol name => Returned name
  | Float 0 _ => Returned "0"%string
  | Binary S_Add a b _ =>
      and_then (S_latex a) (fun x =>
      and_then (S_latex b) (fun y => Returned (x ++ " + " ++ y)%string))
  | Relational ops_lt a b _ =>
      and_then (S_latex a) (fun x =>
      and_then (S_latex b) (fun y => Returned (x ++ " < " ++ y)%string))
  | _ => Raised (Exception "NotImplementedError" "no printer")
  end.

(** Zero is falsy, a comparison has no truth value, the rest is truthy. *)
Definition truth (e : Expr) : PyResult bool :=
  match e with
  | Float f _ => Returned (negb (Z.eqb (Z.land f (2 ^ 63 - 1)) 0))
  | Relational _ _ _ _ =>
      Raised (Exception "TypeError" "cannot determine truth value of Relational")
  | _ => Returned true
  end.

(** A parser that knows single letters only. *)
Definition parse_latex (s : string) : PyResult Expr :=
  if existsb (String.eqb s) ascii_letters
  then Returned (Symbol s)
  else Raised (Exception "LaTeXParsingError" "I don't understand this").

(** A compiler that refuses documents longer than 80 characters. *)
Definition pdflatex (tmpdir : Dir) (doc : string) : PyResult unit :=
  if Nat.leb (String.length doc) 80
  then Returned tt
  else Raised (Exception "CalledProcessError" "non-zero exit status 1").

Definition env : Env :=
  mkEnv raises S_latex truth Expr_eqb parse_latex
        (fun _ _ => Returned tt)
        pdflatex
        (fun _ _ => Returned "%PDF-1.5"%string).

(** The same library with a printer that prints symbols as nothing. *)
Definition silent_latex (e : Expr) : PyResult string :=
  match e with
  | Symbol _ => Returned EmptyString
  | _ => S_latex e
  end.

Definition silent_env : Env :=
  mkEnv raises silent_latex truth Expr_eqb parse_latex
        (fun _ _ => Returned tt)
        pdflatex
        (fun _ _ => Returned "%PDF-1.5"%string).

(** A state with the given choices and no temporary directory. *)
Definition start (cs : list Z) : State := mkState cs [] 0.

End Demo.

(** ** Predicates used in the statements *)

(** A strategy is tame for [fuel] when it only consumes choices: it
    touches no directory, never lengthens the choice sequence, and does
    not exhaust the fuel on a choice sequence shorter than [fuel]. *)
Definition tame (fuel : nat) {A} (s : Strategy A) : Prop :=
  forall st,
    live_dirs (snd (s st)) = live_dirs st /\
    next_dir (snd (s st)) = next_dir st /\
    (List.length (choices (snd (s st))) <= List.length (choices st))%nat /\
    ((List.length (choices st) < fuel)%nat -> fst (s st) <> OutOfFuel).

(** No exception leaves the strategy. *)
Definition never_raises {A} (s : Strategy A) : Prop :=
  forall st x, fst (s st) <> Raise x.

(** Every value the strategy yields satisfies [P]. *)
Definition yields {A} (s : Strategy A) (P : A -> Prop) : Prop :=
  forall st a st', s st = (Ok a, st') -> P a.

(** Built from literals, symbols and numeric compositions only. *)
Definition numeric (e : Expr) : Prop := relation_free e = true.

(** A comparison of two relation-free operands. *)
Definition comparison (e : Expr) : Prop :=
  exists op a b evaluate,
    e = Relational op a b evaluate /\ numeric a /\ numeric b.

(** What the test records for the parser: its result, or [None] when
    it raised. *)
Definition parsed_or_absent (env : Env) (latex_str : string) : option Expr :=
  match parse_latex env latex_str with
  | Returned parsed => Some parsed
  | Raised _ => None
  end.

(** [recovered_locally env s st]: during the draw of [s] from [st] an
    error occurs that the code recovers from.  The first five rules are
    the unsupported constructions (both attempts raise), then come the
    printer raising and the markup that does not compile; the last
    three rules say that the error may occur in a strategy that [s]
    draws from.  A printer that returns the empty string is not among
    the rules: the filter does not reject it. *)
Inductive recovered_locally (env : Env)
  : forall A : Type, Strategy A -> State -> Prop :=
| unsupported_float st f st1 prec st2 x :
    st_floats st = (Ok f, st1) ->
    integers 1 35 st1 = (Ok prec, st2) ->
    raises env (Float f prec) = Some x ->
    recovered_locally env (floats env) st
| unsupported_unary ne st op st1 a st2 x y :
    _numeric_unary_ops st = (Ok op, st1) ->
    ne st1 = (Ok a, st2) ->
    raises env (Unary op a false) = Some x ->
    raises env (Unary op a true) = Some y ->
    recovered_locally env (numeric_unary_expressions env ne) st
| unsupported_binary ne st op st1 a st2 b st3 x y :
    _numeric_binary_ops st = (Ok op, st1) ->
    ne st1 = (Ok a, st2) -> ne st2 = (Ok b, st3) ->
    raises env (Binary op a b false) = Some x ->
    raises env (Binary op a b true) = Some y ->
    recovered_locally env (numeric_binary_expressions env ne) st
| unsupported_ternary ne st op st1 a st2 b st3 c st4 x y :
    _numeric_ternary_ops st = (Ok op, st1) ->
    ne st1 = (Ok a, st2) -> ne st2 = (Ok b, st3) -> ne st3 = (Ok c, st4) ->
    raises env (Ternary op a b c false) = Some x ->
    raises env (Ternary op a b c true) = Some y ->
    recovered_locally env (numeric_ternary_expressions env ne) st
| unsupported_relational ne st op st1 a st2 b st3 x y :
    _comparators st = (Ok op, st1) ->
    ne st1 = (Ok a, st2) -> ne st2 = (Ok b, st3) ->
    raises env (Relational op a b false) = Some x ->
    raises env (Relational op a b true) = Some y ->
    recovered_locally env (relational_expressions env ne) st
| printer_raises fuel st expr st1 x :
    one_of [numeric_expressions env fuel;
            relational_expressions env (numeric_expressions env fuel)] st
      = (Ok expr, st1) ->
    S_latex env expr = Raised x ->
    recovered_locally env (latex_printable_expressions env fuel) st
| uncompilable fuel st expr latex_str st1 x :
    latex_printable_expressions env fuel st = (Ok (expr, latex_str), st1) ->
    typeset env (next_dir st1) latex_str = Raised x ->
    recovered_locally env (typesettable_expressions env fuel) st
| in_first_draw A B (s : Strategy A) (k : A -> Strategy B) st :
    recovered_locally env s st ->
    recovered_locally env (bind s k) st
| in_later_draw A B (s : Strategy A) (k : A -> Strategy B) st a st1 :
    s st = (Ok a, st1) ->
    recovered_locally env (k a) st1 ->
    recovered_locally env (bind s k) st
| in_branch A (strategies : list (Strategy A)) st c st1 s :
    next_choice st = (Ok c, st1) ->
    pick strategies c = Some s ->
    recovered_locally env s st1 ->
    recovered_locally env (one_of strategies) st.

(** ** Further code of the notebooks *)

(** [simplifiable_expressions]: [expr.simplify()] is tried, its result
    is dropped, and [assume(success)] in the [finally] block decides.
    [simplify] is the method of the library. *)
Definition simplifiable_expressions (env : Env)
  (simplify : Expr -> PyResult Expr) (fuel : nat) : Strategy Expr :=
  expr <- numeric_expressions env fuel ;;
  let success :=
    match simplify expr with
    | Returned _ => true
    | Raised _ => false
    end in
  _ <- assume success ;;
  ret expr.

(** The earlier notebook, [Hypothesize.ipynb]. *)
Module Hypothesize.

(** [st.integers()] without bounds. *)
Definition st_integers : Strategy Z := next_choice.

(** [floats]: the precision is drawn first and filtered by two
    [assume] calls; the constructor call is not inside a [try]. *)
Definition floats (env : Env) : Strategy Expr :=
  precision <- st_integers ;;
  _ <- assume (Z.ltb (-1) precision) ;;
  _ <- assume (Z.ltb precision 35) ;;
  f <- st_floats ;;
  match call env (Float f precision) with
  | Returned e => ret e
  | Raised x => fun st => (Raise x, st)
  end.

(** The truth value of a Python string: empty is falsy. *)
Definition str_truth (s : string) : bool :=
  match s with
  | EmptyString => false
  | String _ _ => true
  end.

(** [latex_printable_expressions], which ends with [assume(latex_str)].
    [expressions] stands for [numeric_expressions | relational_expressions()]
    of that notebook. *)
Definition latex_printable_expressions (env : Env)
  (expressions : Strategy Expr) : Strategy (Expr * string) :=
  expr <- expressions ;;
  let latex_str :=
    match S_latex env expr with
    | Returned s => Some s
    | Raised _ => None
    end in
  match latex_str with
  | None => assume_False
  | Some s => _ <- assume (str_truth s) ;; ret (expr, s)
  end.

(** [test_latex_roundtrip] of that notebook: no [assume(expr)].  The
    second component lists the strings the parser was called on. *)
Definition test_latex_roundtrip (env : Env)
  (expr_latex_pdf : Expr * string * option PointlessPDFWrapper)
  : TestResult * list string :=
  let '(expr, latex_str, pdf) := expr_latex_pdf in
  let expr_parsed :=
    match parse_latex env latex_str with
    | Returned parsed => Some parsed
    | Raised _ => None
    end in
  if equal_to_parsed env expr expr_parsed
  then (Passes, [latex_str])
  else (Fails (expr, expr_parsed, latex_str, pdf), [latex_str]).

End Hypothesize.

(** ** Measures and invariants of generated expressions *)

(** The number of constructor calls in an expression. *)
Fixpoint size (e : Expr) : nat :=
  match e with
  | Float _ _ | Symbol _ => 1
  | Unary _ a _ => S (size a)
  | Binary _ a b _ => S (size a + size b)
  | Ternary _ a b c _ => S (size a + size b + size c)
  | Relational _ a b _ => S (size a + size b)
  end.

(** [P] holds of the expression and of every operand inside it. *)
Fixpoint every_node (P : Expr -> Prop) (e : Expr) : Prop :=
  P e /\
  match e with
  | Float _ _ | Symbol _ => True
  | Unary _ a _ => every_node P a
  | Binary _ a b _ => every_node P a /\ every_node P b
  | Ternary _ a b c _ => every_node P a /\ every_node P b /\ every_node P c
  | Relational _ a b _ => every_node P a /\ every_node P b
  end.

(** What the strategies guarantee of a single constructor call: the
    bounds of a literal, the alphabet of a symbol, and that a binary
    composition is unevaluated. *)
Definition as_drawn (e : Expr) : Prop :=
  match e with
  | Float f prec => (1 <= prec <= 35)%Z /\ (0 <= f < 2 ^ 64)%Z
  | Symbol name => In name ascii_letters /\ String.length name = 1%nat
  | Binary _ _ _ evaluate => evaluate = false
  | _ => True
  end.

(** Every call in the expression was accepted by the library and is
    as the strategies draw it. *)
Definition built (env : Env) (e : Expr) : Prop :=
  every_node (fun x => raises env x = None /\ as_drawn x) e.

(** A successful draw consumes a prefix of the choices, at least
    [cost] of them for the value drawn. *)
Definition spends {A} (s : Strategy A) (cost : A -> nat) : Prop :=
  forall st a st',
    s st = (Ok a, st') ->
    exists used,
      choices st = used ++ choices st' /\ (cost a <= List.length used)%nat.

(** An exception that leaves the strategy satisfies [P]. *)
Definition raises_within {A} (P : Exn -> Prop) (s : Strategy A) : Prop :=
  forall st x, fst (s st) = Raise x -> P x.

(** The exception was raised by [S.Symbol] on a drawn name. *)
Definition from_Symbol (env : Env) (x : Exn) : Prop :=
  exists name, In name ascii_letters /\ raises env (Symbol name) = Some x.

(** Directory numbers not yet handed out are not in use. *)
Definition fresh_dirs (st : State) : Prop :=
  forall d, In d (live_dirs st) -> (d < next_dir st)%nat.

(** A report that can be blamed on the parser: the markup is what the
    printer gave for the expression, the document compiled, the
    expression is truthy, and what the parser gave (or its absence)
    differs from the expression. *)
Definition genuine_report (env : Env) (report : FailureReport) : Prop :=
  let '(expr, expr_parsed, latex_str, pdf) := report in
  S_latex env expr = Returned latex_str /\
  (exists wrapped, pdf = Some wrapped) /\
  truth env expr = Returned true /\
  expr_parsed = parsed_or_absent env latex_str /\
  equal_to_parsed env expr expr_parsed = false.

(** Libraries to run the further properties on. *)
Module Variants.

(** A library that refuses the symbol [q]. *)
Definition raises_q (e : Expr) : option Exn :=
  match e with
  | Symbol "q" => Some (Exception "ValueError" "no such symbol")
  | _ => Demo.raises e
  end.

Definition env_q : Env :=
  mkEnv raises_q Demo.S_latex Demo.truth Expr_eqb Demo.parse_latex
        (fun _ _ => Returned tt)
        Demo.pdflatex
        (fun _ _ => Returned "%PDF-1.5"%string).

(** [simplify] that fails on factorials. *)
Definition simplify (e : Expr) : PyResult Expr :=
  match e with
  | Unary S_factorial _ _ => Raised (Exception "ValueError" "cannot simplify")
  | _ => Returned e
  end.

End Variants.

(** * Properties *)

(** ** What a draw leaves behind, and when the fuel suffices *)

Lemma tame_weaken fuel fuel' A (s : Strategy A) :
  (fuel <= fuel')%nat -> tame fuel' s -> tame fuel s.
Proof.
  intros Hle Hs st. destruct (Hs st) as (Hl & Hn & Hc & Hf).
  repeat split; auto. intros Hlt. apply Hf. lia.
Qed.

Lemma tame_ret fuel A (a : A) : tame fuel (ret a).
Proof. intros st. cbn. repeat split; auto. discriminate. Qed.

Lemma tame_assume_False fuel A : tame fuel (@assume_False A).
Proof. intros st. cbn. repeat split; auto. discriminate. Qed.

Lemma tame_raise fuel A (x : Exn) :
  tame fuel (fun st : State => (@Raise A x, st)).
Proof. intros st. cbn. repeat split; auto. discriminate. Qed.

Lemma tame_bind fuel A B (s : Strategy A) (k : A -> Strategy B) :
  tame fuel s -> (forall a, tame fuel (k a)) -> tame fuel (bind s k).
Proof.
  intros Hs Hk st. unfold bind.
  destruct (Hs st) as (Hl & Hn & Hc & Hf).
  destruct (s st) as [[a | | x | | ] st1]; cbn in *;
    try (repeat split;
         solve [auto | discriminate
               | intros Hlt; exfalso; apply (Hf Hlt); reflexivity]).
  destruct (Hk a st1) as (Hl' & Hn' & Hc' & Hf').
  repeat split; try congruence; try lia.
  intros Hlt. apply Hf'. lia.
Qed.

(** Drawing a choice shortens the sequence by one. *)
Lemma next_choice_inv st c st1 :
  next_choice st = (Ok c, st1) ->
  choices st = c :: choices st1 /\
  live_dirs st1 = live_dirs st /\ next_dir st1 = next_dir st.
Proof.
  unfold next_choice. destruct (choices st) as [| c' rest] eqn:E.
  - discriminate.
  - intros H. inversion H; subst. cbn. auto.
Qed.

Lemma next_choice_cases st :
  (choices st = [] /\ next_choice st = (Overrun, st)) \/
  (exists c st1, next_choice st = (Ok c, st1)).
Proof.
  unfold next_choice. destruct (choices st); eauto.
Qed.

Lemma tame_next_choice fuel : tame fuel next_choice.
Proof.
  intros st. destruct (next_choice_cases st) as [[E H] | (c & st1 & H)].
  - rewrite H. cbn. repeat split; auto. discriminate.
  - rewrite H. cbn. apply next_choice_inv in H as (E & Hl & Hn).
    rewrite E. cbn. repeat split; auto. discriminate.
Qed.

Lemma tame_integers fuel lo hi : tame fuel (integers lo hi).
Proof.
  apply tame_bind; [apply tame_next_choice | intros; apply tame_ret].
Qed.

Lemma tame_st_floats fuel : tame fuel st_floats.
Proof.
  apply tame_bind; [apply tame_next_choice | intros; apply tame_ret].
Qed.

(** The two shapes of [sampled_from]. *)
Lemma sampled_from_unfold A (elements : list A) :
  (exists x, elements = [x] /\ sampled_from elements = ret x) \/
  sampled_from elements =
    bind next_choice (fun c => match pick elements c with
                               | Some x => ret x
                               | None => assume_False
                               end).
Proof. destruct elements as [| x [| y rest]]; eauto. Qed.

Lemma tame_sampled_from fuel A (elements : list A) :
  tame fuel (sampled_from elements).
Proof.
  destruct (sampled_from_unfold elements) as [(x & _ & ->) | ->];
    [apply tame_ret |].
  apply tame_bind; [apply tame_next_choice |].
  intros c. destruct (pick elements c);
    [apply tame_ret | apply tame_assume_False].
Qed.

(** A branch of [one_of] runs after one choice was consumed, so it may
    be tame for one unit of fuel less. *)
Lemma tame_one_of fuel A (strategies : list (Strategy A)) :
  Forall (tame fuel) strategies -> tame (S fuel) (one_of strategies).
Proof.
  intros Hall st. unfold one_of, bind.
  destruct (next_choice_cases st) as [[E H] | (c & st1 & H)]; rewrite H.
  - cbn. repeat split; auto. discriminate.
  - apply next_choice_inv in H as (E & Hl & Hn).
    unfold pick. destruct (nth_error strategies _) as [s |] eqn:Hs.
    + apply nth_error_In in Hs.
      rewrite Forall_forall in Hall.
      destruct (Hall s Hs st1) as (Hl' & Hn' & Hc' & Hf').
      rewrite E. cbn. repeat split; try congruence; try lia.
      intros Hlt. apply Hf'. lia.
    + cbn. rewrite E. cbn. repeat split; auto. discriminate.
Qed.

Section PipelineFacts.

Variable env : Env.

Ltac two_attempts :=
  repeat match goal with
         | |- tame _ (bind _ _) => apply tame_bind
         | |- tame _ (sampled_from _) => apply tame_sampled_from
         | |- tame _ (ret _) => apply tame_ret
         | |- tame _ assume_False => apply tame_assume_False
         | |- tame _ (match ?r with Returned _ => _ | Raised _ => _ end) =>
             destruct r
         | |- forall _, _ => intro
         | H : tame ?f ?s |- tame ?f ?s => exact H
         end.

Lemma tame_floats fuel : tame fuel (floats env).
Proof.
  unfold floats.
  apply tame_bind; [apply tame_st_floats | intros f].
  apply tame_bind; [apply tame_integers | intros prec].
  two_attempts.
Qed.

Lemma tame_symbols fuel : tame fuel (symbols env).
Proof.
  unfold symbols, _variable_names.
  apply tame_bind; [apply tame_sampled_from | intros name].
  destruct (call env (Symbol name)); [apply tame_ret | apply tame_raise].
Qed.

Lemma tame_numeric_unary_expressions fuel ne :
  tame fuel ne -> tame fuel (numeric_unary_expressions env ne).
Proof.
  intros Hne. unfold numeric_unary_expressions, _numeric_unary_ops.
  two_attempts.
Qed.

Lemma tame_numeric_binary_expressions fuel ne :
  tame fuel ne -> tame fuel (numeric_binary_expressions env ne).
Proof.
  intros Hne. unfold numeric_binary_expressions, _numeric_binary_ops.
  two_attempts.
Qed.

Lemma tame_numeric_ternary_expressions fuel ne :
  tame fuel ne -> tame fuel (numeric_ternary_expressions env ne).
Proof.
  intros Hne. unfold numeric_ternary_expressions, _numeric_ternary_ops.
  two_attempts.
Qed.

Lemma tame_relational_expressions fuel ne :
  tame fuel ne -> tame fuel (relational_expressions env ne).
Proof.
  intros Hne. unfold relational_expressions, _comparators.
  two_attempts.
Qed.

(** The recursion of [numeric_expressions] consumes a choice at every
    level: fuel beyond the length of the choice sequence is never used
    up. *)
Lemma tame_numeric_expressions fuel : tame fuel (numeric_expressions env fuel).
Proof.
  induction fuel as [| fuel IH].
  - intros st. cbn. repeat split; auto. lia.
  - cbn [numeric_expressions]. apply tame_one_of.
    repeat (apply Forall_cons || apply Forall_nil);
      auto using tame_floats, tame_symbols, tame_numeric_unary_expressions,
        tame_numeric_binary_expressions, tame_numeric_ternary_expressions.
Qed.

Lemma tame_latex_printable_expressions fuel :
  tame (S fuel) (latex_printable_expressions env fuel).
Proof.
  unfold latex_printable_expressions.
  apply tame_bind.
  - apply tame_one_of. repeat (apply Forall_cons || apply Forall_nil).
    + apply tame_numeric_expressions.
    + apply tame_relational_expressions, tame_numeric_expressions.
  - intros expr. destruct (S_latex env expr);
      [apply tame_ret | apply tame_assume_False].
Qed.

End PipelineFacts.

(** ** Reading a successful draw backwards *)

Lemma bind_Ok A B (s : Strategy A) (k : A -> Strategy B) st b st' :
  bind s k st = (Ok b, st') ->
  exists a st1, s st = (Ok a, st1) /\ k a st1 = (Ok b, st').
Proof.
  unfold bind. destruct (s st) as [[a | | x | | ] st1]; try discriminate.
  intros H. eauto.
Qed.

Lemma pick_In A (elements : list A) c x :
  pick elements c = Some x -> In x elements.
Proof. unfold pick. apply nth_error_In. Qed.

Lemma sampled_from_Ok A (elements : list A) st x st' :
  sampled_from elements st = (Ok x, st') -> In x elements.
Proof.
  destruct (sampled_from_unfold elements) as [(y & -> & ->) | ->];
    [intros H; inversion H; subst; left; reflexivity |].
  intros H.
  apply bind_Ok in H as (c & st1 & _ & H).
  destruct (pick elements c) eqn:E; [| discriminate].
  inversion H; subst. eapply pick_In; eauto.
Qed.

Lemma one_of_Ok A (strategies : list (Strategy A)) st a st' :
  one_of strategies st = (Ok a, st') ->
  exists s st1, In s strategies /\ s st1 = (Ok a, st').
Proof.
  unfold one_of. intros H.
  apply bind_Ok in H as (c & st1 & _ & H).
  destruct (pick strategies c) as [s |] eqn:E; [| discriminate].
  exists s, st1. split; [eapply pick_In; eauto | assumption].
Qed.

Lemma integers_Ok lo hi st p st' :
  (lo <= hi)%Z -> integers lo hi st = (Ok p, st') -> (lo <= p <= hi)%Z.
Proof.
  intros Hle H. unfold integers in H.
  apply bind_Ok in H as (c & st1 & _ & H).
  inversion H; subst.
  pose proof (Z.mod_pos_bound c (hi - lo + 1)). lia.
Qed.

(** What [floats] yields: the literal of the two values drawn, which the
    library accepted. *)
Lemma floats_Ok env st e st' :
  floats env st = (Ok e, st') ->
  exists f prec,
    e = Float f prec /\ (1 <= prec <= 35)%Z /\ (0 <= f < 2 ^ 64)%Z /\
    raises env (Float f prec) = None.
Proof.
  unfold floats. intros H.
  apply bind_Ok in H as (f & st1 & Hf & H).
  apply bind_Ok in H as (prec & st2 & Hp & H).
  apply integers_Ok in Hp; [| lia].
  unfold st_floats in Hf. apply bind_Ok in Hf as (c & st0 & _ & Hf).
  inversion Hf; subst f.
  unfold call in H. destruct (raises env _) eqn:Hr; [discriminate |].
  inversion H; subst.
  exists (c mod 2 ^ 64)%Z, prec. repeat split; try lia; try assumption;
    apply Z.mod_pos_bound; lia.
Qed.

(** ** Operator tables (C8) *)

(** C8, on the code: the table of unary operators is not free of
    repetitions.  [S.acos] is listed twice, at positions 3 and 5, so
    a uniform choice of a position selects it twice as often as any other
    operator of the table; the binary, ternary and relational tables
    list each of their operators once. *)
Theorem unary_table_lists_acos_twice :
  count_occ UnaryOp_eq_dec _numeric_unary_ops_elements S_acos = 2%nat /\
  count_occ UnaryOp_eq_dec _numeric_unary_ops_elements S_sin = 1%nat /\
  pick _numeric_unary_ops_elements 3 = Some S_acos /\
  pick _numeric_unary_ops_elements 5 = Some S_acos /\
  ~ NoDup _numeric_unary_ops_elements /\
  NoDup _numeric_binary_ops_elements /\
  NoDup _numeric_ternary_ops_elements /\
  NoDup _comparators_elements.
Proof.
  repeat split; try reflexivity.
  - intros H. unfold _numeric_unary_ops_elements in H.
    do 3 (apply NoDup_cons_iff in H as [_ H]).
    apply NoDup_cons_iff in H as [H _].
    apply H. cbn. auto.
  - unfold _numeric_binary_ops_elements.
    repeat (apply NoDup_cons; [cbn; intuition discriminate |]).
    apply NoDup_nil.
  - unfold _numeric_ternary_ops_elements.
    repeat (apply NoDup_cons; [cbn; intuition discriminate |]).
    apply NoDup_nil.
  - unfold _comparators_elements.
    repeat (apply NoDup_cons; [cbn; intuition discriminate |]).
    apply NoDup_nil.
Qed.

(** ** Literal floats (C4) *)

(** C4 as stated fails: the choice sequence [0; 34] makes [floats] draw
    the precision 35, which is outside [1, 34]. *)
Lemma floats_draws_precision_35 :
  floats Demo.env (Demo.start [0; 34]%Z)
    = (Ok (Float 0 35), Demo.start []) /\
  ~ (1 <= 35 <= 34)%Z.
Proof. split; [reflexivity | lia]. Qed.

(** C4, amended: every literal that [floats] yields was built with a
    precision in the inclusive range [1, 35] (and a 64-bit value). *)
Theorem floats_precision_range env st e st' :
  floats env st = (Ok e, st') ->
  exists f prec,
    e = Float f prec /\ (1 <= prec <= 35)%Z /\ (0 <= f < 2 ^ 64)%Z.
Proof.
  intros H. apply floats_Ok in H as (f & prec & He & Hp & Hf & _).
  exists f, prec. auto.
Qed.

Lemma floats_precision_range_witness :
  exists f prec,
    Float 0 35 = Float f prec /\ (1 <= prec <= 35)%Z /\ (0 <= f < 2 ^ 64)%Z.
Proof.
  apply (@floats_precision_range Demo.env (Demo.start [0; 34]%Z)
           (Float 0 35) (Demo.start [])).
  reflexivity.
Defined.

(** ** The two construction attempts (C1) *)

Section TwoAttempts.

Variable env : Env.
Variable ne : Strategy Expr.

(** The unary composition falls back to the evaluating call of the
    sampled operator on the drawn operand. *)
Lemma numeric_unary_expressions_fallback st op st1 a st2 x :
  _numeric_unary_ops st = (Ok op, st1) ->
  ne st1 = (Ok a, st2) ->
  raises env (Unary op a false) = Some x ->
  raises env (Unary op a true) = None ->
  numeric_unary_expressions env ne st = (Ok (Unary op a true), st2).
Proof.
  intros Hop Ha Hx Hy. unfold numeric_unary_expressions, bind, call.
  rewrite Hop, Ha, Hx, Hy. reflexivity.
Qed.

Lemma numeric_ternary_expressions_fallback st op st1 a st2 b st3 c st4 x :
  _numeric_ternary_ops st = (Ok op, st1) ->
  ne st1 = (Ok a, st2) -> ne st2 = (Ok b, st3) -> ne st3 = (Ok c, st4) ->
  raises env (Ternary op a b c false) = Some x ->
  raises env (Ternary op a b c true) = None ->
  numeric_ternary_expressions env ne st = (Ok (Ternary op a b c true), st4).
Proof.
  intros Hop Ha Hb Hc Hx Hy. unfold numeric_ternary_expressions, bind, call.
  rewrite Hop, Ha, Hb, Hc, Hx, Hy. reflexivity.
Qed.

Lemma relational_expressions_fallback st op st1 a st2 b st3 x :
  _comparators st = (Ok op, st1) ->
  ne st1 = (Ok a, st2) -> ne st2 = (Ok b, st3) ->
  raises env (Relational op a b false) = Some x ->
  raises env (Relational op a b true) = None ->
  relational_expressions env ne st = (Ok (Relational op a b true), st3).
Proof.
  intros Hop Ha Hb Hx Hy. unfold relational_expressions, bind, call.
  rewrite Hop, Ha, Hb, Hx, Hy. reflexivity.
Qed.

(** The binary composition has no working second attempt: when the
    unevaluated call raises the draw is rejected, whatever the
    evaluating call of the sampled operator would have given. *)
Lemma numeric_binary_expressions_no_fallback st op st1 a st2 b st3 x :
  _numeric_binary_ops st = (Ok op, st1) ->
  ne st1 = (Ok a, st2) -> ne st2 = (Ok b, st3) ->
  raises env (Binary op a b false) = Some x ->
  numeric_binary_expressions env ne st = (Reject, st3).
Proof.
  intros Hop Ha Hb Hx. unfold numeric_binary_expressions, bind, call.
  rewrite Hop, Ha, Hb, Hx. reflexivity.
Qed.

End TwoAttempts.

(** C1, on the code: with [S.Rational] sampled and the symbols [a] and
    [b] drawn as operands, the unevaluated call raises and the
    evaluating call [S.Rational(a, b)] would return, yet the binary draw
    is rejected: its second attempt never calls the sampled operator.
    The unary composition, in the same situation, returns the evaluated
    expression. *)
Theorem numeric_binary_expressions_rejects_where_evaluation_builds :
  let a := Symbol "a" in
  let b := Symbol "b" in
  (exists x, call Demo.env (Binary S_Rational a b false) = Raised x) /\
  call Demo.env (Binary S_Rational a b true)
    = Returned (Binary S_Rational a b true) /\
  numeric_binary_expressions Demo.env (numeric_expressions Demo.env 1)
    (Demo.start [3; 1; 0; 1; 1]%Z) = (Reject, Demo.start []) /\
  (forall env ne st op st1 a' st2 b' st3 x,
      _numeric_binary_ops st = (Ok op, st1) ->
      ne st1 = (Ok a', st2) -> ne st2 = (Ok b', st3) ->
      raises env (Binary op a' b' false) = Some x ->
      numeric_binary_expressions env ne st = (Reject, st3)).
Proof.
  cbn zeta. split; [eexists; reflexivity |].
  split; [reflexivity |]. split; [reflexivity |].
  intros. eapply numeric_binary_expressions_no_fallback; eauto.
Qed.

(** ** The printable-expression filter (C3) *)

(** An expression whose markup is the empty string passes the filter. *)
Lemma latex_printable_expressions_keeps_any_string env fuel st expr st1 s :
  one_of [numeric_expressions env fuel;
          relational_expressions env (numeric_expressions env fuel)] st
    = (Ok expr, st1) ->
  S_latex env expr = Returned s ->
  latex_printable_expressions env fuel st = (Ok (expr, s), st1).
Proof.
  intros Hd Hs. unfold latex_printable_expressions, bind.
  rewrite Hd, Hs. reflexivity.
Qed.

(** C3, on the code: with a printer that returns the empty string for
    the symbol [a], the filter yields the symbol with empty markup, the oracle
    accepts it, and the test calls the parser on the empty string and
    raises a report. *)
Theorem latex_printable_expressions_accepts_empty_markup :
  S_latex Demo.silent_env (Symbol "a") = Returned EmptyString /\
  latex_printable_expressions Demo.silent_env 1 (Demo.start [0; 1; 0]%Z)
    = (Ok (Symbol "a", EmptyString), Demo.start []) /\
  fst (run_example Demo.silent_env [0; 1; 0]%Z (Demo.start []))
    = Fails (Symbol "a", None, EmptyString, Some (mkPDF "%PDF-1.5")).
Proof. repeat split; reflexivity. Qed.

(** ** No exception leaves the generators *)

Lemma never_raises_ret A (a : A) : never_raises (ret a).
Proof. intros st x. discriminate. Qed.

Lemma never_raises_assume_False A : never_raises (@assume_False A).
Proof. intros st x. discriminate. Qed.

Lemma never_raises_next_choice : never_raises next_choice.
Proof.
  intros st x. unfold next_choice. destruct (choices st); discriminate.
Qed.

Lemma never_raises_bind A B (s : Strategy A) (k : A -> Strategy B) :
  never_raises s -> (forall a, never_raises (k a)) -> never_raises (bind s k).
Proof.
  intros Hs Hk st x. unfold bind. specialize (Hs st).
  destruct (s st) as [[a | | y | | ] st1]; cbn [fst] in *;
    try discriminate.
  - apply Hk.
  - intros _. apply (Hs y). reflexivity.
Qed.

Lemma never_raises_sampled_from A (elements : list A) :
  never_raises (sampled_from elements).
Proof.
  destruct (sampled_from_unfold elements) as [(x & _ & ->) | ->];
    [apply never_raises_ret |].
  apply never_raises_bind; [apply never_raises_next_choice | intros c].
  destruct (pick elements c);
    [apply never_raises_ret | apply never_raises_assume_False].
Qed.

Lemma never_raises_one_of A (strategies : list (Strategy A)) :
  Forall never_raises strategies -> never_raises (one_of strategies).
Proof.
  intros Hall.
  apply never_raises_bind; [apply never_raises_next_choice | intros c].
  destruct (pick strategies c) as [s |] eqn:E.
  - rewrite Forall_forall in Hall. apply Hall. eapply pick_In; eauto.
  - apply never_raises_assume_False.
Qed.

Section Quiet.

Variable env : Env.

(** The one constructor call outside a [try] block is [S.Symbol]. *)
Hypothesis Symbol_total : forall name, raises env (Symbol name) = None.

Ltac quiet :=
  repeat match goal with
         | |- never_raises (bind _ _) => apply never_raises_bind
         | |- never_raises (sampled_from _) => apply never_raises_sampled_from
         | |- never_raises (integers _ _) => unfold integers
         | |- never_raises st_floats => unfold st_floats
         | |- never_raises next_choice => apply never_raises_next_choice
         | |- never_raises (ret _) => apply never_raises_ret
         | |- never_raises assume_False => apply never_raises_assume_False
         | |- never_raises (match ?r with Returned _ => _ | Raised _ => _ end) =>
             destruct r
         | |- forall _, _ => intro
         | H : never_raises ?s |- never_raises ?s => exact H
         end.

Lemma never_raises_floats : never_raises (floats env).
Proof. unfold floats. quiet. Qed.

Lemma never_raises_symbols : never_raises (symbols env).
Proof.
  unfold symbols, _variable_names.
  apply never_raises_bind; [apply never_raises_sampled_from | intros name].
  unfold call. rewrite Symbol_total. apply never_raises_ret.
Qed.

Lemma never_raises_numeric_expressions fuel :
  never_raises (numeric_expressions env fuel).
Proof.
  induction fuel as [| fuel IH].
  - intros st x. discriminate.
  - cbn [numeric_expressions]. apply never_raises_one_of.
    repeat (apply Forall_cons || apply Forall_nil).
    + apply never_raises_floats.
    + apply never_raises_symbols.
    + unfold numeric_unary_expressions, _numeric_unary_ops. quiet.
    + unfold numeric_binary_expressions, _numeric_binary_ops. quiet.
    + unfold numeric_ternary_expressions, _numeric_ternary_ops. quiet.
Qed.

Lemma never_raises_latex_printable_expressions fuel :
  never_raises (latex_printable_expressions env fuel).
Proof.
  pose proof (never_raises_numeric_expressions fuel) as Hne.
  unfold latex_printable_expressions.
  apply never_raises_bind.
  - apply never_raises_one_of.
    repeat (apply Forall_cons || apply Forall_nil); [exact Hne |].
    unfold relational_expressions, _comparators. quiet.
  - intros expr. destruct (S_latex env expr);
      [apply never_raises_ret | apply never_raises_assume_False].
Qed.

(** With [mkdtemp] and [rmtree] succeeding, nothing that the library
    or the three steps of the oracle raise leaves the strategy. *)
Lemma never_raises_typesettable_expressions fuel :
  never_raises (typesettable_expressions env fuel).
Proof.
  unfold typesettable_expressions.
  apply never_raises_bind;
    [apply never_raises_latex_printable_expressions | intros [expr latex_str]].
  intros st x. unfold bind, mkdtemp, rmtree, assume, assume_False, ret.
  destruct (typeset env (next_dir st) latex_str); cbn; discriminate.
Qed.

End Quiet.

(** ** Errors recovered inside the pipeline (C5) *)

(** The errors that the code recovers from: when a construction is
    refused in both attempts, the printer raises, or the markup does not
    compile, anywhere in a draw, the draw is rejected; in particular no
    exception leaves the strategy. *)
Lemma recovered_locally_rejects env A (s : Strategy A) st :
  recovered_locally env s st ->
  fst (s st) = Reject /\ forall x, fst (s st) <> Raise x.
Proof.
  intros H.
  assert (Hr : fst (s st) = Reject).
  { induction H.
    - unfold floats, bind, call. rewrite H, H0, H1. reflexivity.
    - unfold numeric_unary_expressions, bind, call.
      rewrite H, H0, H1, H2. reflexivity.
    - unfold numeric_binary_expressions, bind, call.
      rewrite H, H0, H1, H2. reflexivity.
    - unfold numeric_ternary_expressions, bind, call.
      rewrite H, H0, H1, H2, H3, H4. reflexivity.
    - unfold relational_expressions, bind, call.
      rewrite H, H0, H1, H2, H3. reflexivity.
    - unfold latex_printable_expressions, bind.
      rewrite H, H0. reflexivity.
    - unfold typesettable_expressions, bind.
      rewrite H. unfold mkdtemp at 1. cbn [next_dir]. rewrite H0.
      reflexivity.
    - unfold bind. destruct (s st) as [[a | | x | | ] st1];
        cbn in IHrecovered_locally; try discriminate. reflexivity.
    - unfold bind. rewrite H. exact IHrecovered_locally.
    - unfold one_of, bind. rewrite H, H0. exact IHrecovered_locally. }
  split; [exact Hr | intros x; rewrite Hr; discriminate].
Qed.

(** A non-finite float inside [sin], inside the whole pipeline: the
    construction of the literal is refused, the oracle draw rejects. *)
Lemma recovered_locally_rejects_witness :
  let st := Demo.start [0; 2; 0; 0; 2047 * 2 ^ 52; 7]%Z in
  fst (typesettable_expressions Demo.env 2 st) = Reject /\
  forall x, fst (typesettable_expressions Demo.env 2 st) <> Raise x.
Proof.
  intros st.
  apply (@recovered_locally_rejects Demo.env _
           (typesettable_expressions Demo.env 2) st).
  apply in_first_draw. apply in_first_draw.
  eapply in_branch; [reflexivity | reflexivity |].
  cbn [numeric_expressions].
  eapply in_branch; [reflexivity | reflexivity |].
  eapply in_later_draw; [reflexivity |].
  apply in_first_draw.
  cbn [numeric_expressions].
  eapply in_branch; [reflexivity | reflexivity |].
  eapply unsupported_float; reflexivity.
Defined.

(** C5, on the code: of the three recovered kinds, the unprintable
    expression is recovered only in part.  A printer that raises leads
    to a rejected draw, like a refused construction and markup that
    does not compile; but a printer that returns the empty string, which
    is unprintable as well, does not: with such a printer for the symbol
    [a], the filter does not reject the draw, and the pipeline yields
    the oracle case of [a] with empty markup.  The same holds for every
    library and every expression drawn. *)
Theorem empty_markup_is_not_rejected :
  S_latex Demo.silent_env (Symbol "a") = Returned EmptyString /\
  fst (latex_printable_expressions Demo.silent_env 1 (Demo.start [0; 1; 0]%Z))
    <> Reject /\
  typesettable_expressions Demo.silent_env 1 (Demo.start [0; 1; 0]%Z)
    = (Ok (Symbol "a", EmptyString, Some (mkPDF "%PDF-1.5")),
       mkState [] [] 1) /\
  (forall env fuel st expr st1,
      one_of [numeric_expressions env fuel;
              relational_expressions env (numeric_expressions env fuel)] st
        = (Ok expr, st1) ->
      S_latex env expr = Returned EmptyString ->
      latex_printable_expressions env fuel st
        = (Ok (expr, EmptyString), st1)) /\
  (forall env A (s : Strategy A) st,
      recovered_locally env s st ->
      fst (s st) = Reject /\ forall x, fst (s st) <> Raise x).
Proof.
  split; [reflexivity |].
  split; [cbn; discriminate |].
  split; [reflexivity |].
  split.
  - intros env fuel st expr st1 Hd Hs.
    apply latex_printable_expressions_keeps_any_string; assumption.
  - intros env A s st H. exact (recovered_locally_rejects H).
Qed.

(** ** The ground-truth oracle (C6, C7) *)

(** C6: a case the oracle yields carries the compiled document, and the
    document was written, compiled and read back without error in the
    temporary directory of that draw. *)
Theorem typesettable_expressions_artifact_present
  env fuel st expr latex_str pdf st' :
  typesettable_expressions env fuel st = (Ok (expr, latex_str, pdf), st') ->
  pdf <> None /\
  exists tmpdir bytes,
    pdf = Some (mkPDF bytes) /\
    write_tex env tmpdir (LATEX_DOC latex_str) = Returned tt /\
    pdflatex env tmpdir (LATEX_DOC latex_str) = Returned tt /\
    read_pdf env tmpdir (LATEX_DOC latex_str) = Returned bytes.
Proof.
  unfold typesettable_expressions. intros H.
  apply bind_Ok in H as ([e s] & st1 & _ & H).
  apply bind_Ok in H as (tmpdir & st2 & _ & H).
  unfold typeset, and_then in H.
  destruct (write_tex env tmpdir (LATEX_DOC s)) as [[] | x] eqn:Hw;
    [| discriminate].
  destruct (pdflatex env tmpdir (LATEX_DOC s)) as [[] | x] eqn:Hc;
    [| discriminate].
  destruct (read_pdf env tmpdir (LATEX_DOC s)) as [bytes | x] eqn:Hr;
    [| discriminate].
  cbn in H. inversion H; subst.
  split; [discriminate |].
  exists tmpdir, bytes. auto.
Qed.

Lemma typesettable_expressions_artifact_present_witness :
  Some (mkPDF "%PDF-1.5") <> None /\
  exists tmpdir bytes,
    Some (mkPDF "%PDF-1.5") = Some (mkPDF bytes) /\
    write_tex Demo.env tmpdir (LATEX_DOC "a + b") = Returned tt /\
    pdflatex Demo.env tmpdir (LATEX_DOC "a + b") = Returned tt /\
    read_pdf Demo.env tmpdir (LATEX_DOC "a + b") = Returned bytes.
Proof.
  apply (@typesettable_expressions_artifact_present Demo.env 2
           (Demo.start [0; 3; 0; 1; 0; 1; 1]%Z)
           (Binary S_Add (Symbol "a") (Symbol "b") false)
           "a + b"%string (Some (mkPDF "%PDF-1.5"))
           (mkState [] [] 1)).
  reflexivity.
Defined.

(** C7: whatever the outcome of the draw and of the three steps, the
    oracle leaves no directory behind.  No directory exists afterwards
    that did not exist before, none of the directories created during
    the draw is left, and a directory was indeed created whenever the
    filter yielded a case. *)
Theorem typesettable_expressions_removes_tmpdir env fuel st :
  let st' := snd (typesettable_expressions env fuel st) in
  incl (live_dirs st') (live_dirs st) /\
  (forall d, (next_dir st <= d < next_dir st')%nat -> ~ In d (live_dirs st')) /\
  (forall case st1,
      latex_printable_expressions env fuel st = (Ok case, st1) ->
      next_dir st' = S (next_dir st)).
Proof.
  unfold typesettable_expressions, bind.
  destruct (tame_latex_printable_expressions env fuel st) as (Hl & Hn & _ & _).
  destruct (latex_printable_expressions env fuel st)
    as [[[e s] | | x | | ] st1]; cbn [fst snd] in *;
    try (rewrite Hl, Hn; repeat split;
         [apply incl_refl | intros d Hd; lia | discriminate]).
  unfold mkdtemp, rmtree, assume, assume_False, ret.
  destruct (typeset env (next_dir st1) s);
    cbn [fst snd next_dir live_dirs choices];
    rewrite <- Hl, <- Hn.
  all: set (tmpdir := next_dir st1).
  all: set (left_over := filter _ _).
  all: assert (Hgone : ~ In tmpdir left_over)
    by (intros Hin; apply filter_In in Hin as [_ Hneq];
        rewrite Nat.eqb_refl in Hneq; discriminate).
  all: assert (Hsub : incl left_over (live_dirs st1))
    by (intros d Hd; apply filter_In in Hd as [[Heq | Hin] Hneq];
        [subst d; rewrite Nat.eqb_refl in Hneq; discriminate | exact Hin]).
  all: split; [exact Hsub | split].
  all: try (intros d Hd; assert (d = tmpdir) by lia; subst d; exact Hgone).
  all: intros; reflexivity.
Qed.

(** The fuel [run_example] gives to a draw is never used up: the draw
    ends with a case, a rejection, an error or an exhausted choice
    sequence. *)
Lemma typesettable_expressions_fuel_suffices env cs dirs next :
  fst (typesettable_expressions env (S (List.length cs)) (mkState cs dirs next))
    <> OutOfFuel.
Proof.
  unfold typesettable_expressions, bind.
  destruct (tame_latex_printable_expressions env (S (List.length cs))
              (mkState cs dirs next)) as (_ & _ & _ & Hf).
  cbn [choices] in Hf. specialize (Hf ltac:(lia)).
  destruct (latex_printable_expressions env (S (List.length cs)) _)
    as [[[e s] | | x | | ] st1]; cbn [fst] in *; try discriminate.
  - unfold mkdtemp, rmtree, assume, assume_False, ret.
    destruct (typeset env (next_dir st1) s); cbn; discriminate.
  - congruence.
Qed.

(** The engine replaces a rejected draw by the next example. *)
Lemma given_retries_rejected env cs rest passed st st' :
  typesettable_expressions env (S (List.length cs))
    (mkState cs (live_dirs st) (next_dir st)) = (Reject, st') ->
  given env (cs :: rest) passed st = given env rest passed st'.
Proof.
  intros H. cbn [given]. unfold run_example. rewrite H. reflexivity.
Qed.

(** ** Where relational expressions occur (C9) *)

Lemma yields_ret A (a : A) (P : A -> Prop) : P a -> yields (ret a) P.
Proof. intros Ha st b st' H. inversion H; subst. exact Ha. Qed.

Lemma yields_assume_False A (P : A -> Prop) : yields assume_False P.
Proof. intros st a st' H. discriminate. Qed.

Lemma yields_anything A (s : Strategy A) : yields s (fun _ => True).
Proof. intros st a st' _. exact I. Qed.

Lemma yields_bind A B (s : Strategy A) (k : A -> Strategy B) P Q :
  yields s P -> (forall a, P a -> yields (k a) Q) -> yields (bind s k) Q.
Proof.
  intros Hs Hk st b st' H.
  apply bind_Ok in H as (a & st1 & Ha & Hb).
  eapply Hk; eauto.
Qed.

Lemma yields_one_of A (strategies : list (Strategy A)) P :
  Forall (fun s => yields s P) strategies -> yields (one_of strategies) P.
Proof.
  intros Hall st a st' H.
  apply one_of_Ok in H as (s & st1 & Hin & Hs).
  rewrite Forall_forall in Hall. eapply Hall; eauto.
Qed.

Lemma relation_free_not_relational e :
  relation_free e = true -> is_relational e = false.
Proof. destruct e; cbn; congruence. Qed.

Lemma relation_free_inner_operands e :
  relation_free e = true ->
  forall x, In x (inner_operands e) -> relation_free x = true.
Proof.
  induction e; cbn [relation_free inner_operands]; intros Hrf x Hin;
    repeat match goal with
           | H : _ && _ = true |- _ => apply andb_true_iff in H as [? ?]
           | H : In _ (_ :: _) |- _ => destruct H as [H | H]; [subst |]
           | H : In _ (_ ++ _) |- _ => apply in_app_or in H as [H | H]
           | H : In _ [] |- _ => destruct H
           end;
    auto; discriminate.
Qed.

Section Provenance.

Variable env : Env.

Lemma call_Returned e e' : call env e = Returned e' -> e' = e.
Proof.
  unfold call. destruct (raises env e); [discriminate |].
  intros H. inversion H. reflexivity.
Qed.

(** What one of the two attempts returns is the expression called for. *)
Lemma yields_attempts (P : Expr -> Prop) (first second : Expr) :
  P first -> P second ->
  yields (match call env first with
          | Returned e => ret e
          | Raised _ =>
              match call env second with
              | Returned e => ret e
              | Raised _ => assume_False
              end
          end) P.
Proof.
  intros H1 H2.
  destruct (call env first) eqn:E1.
  - apply call_Returned in E1. subst. apply yields_ret, H1.
  - destruct (call env second) eqn:E2.
    + apply call_Returned in E2. subst. apply yields_ret, H2.
    + apply yields_assume_False.
Qed.

Lemma yields_floats : yields (floats env) numeric.
Proof.
  intros st e st' H.
  apply floats_Ok in H as (f & prec & -> & _). reflexivity.
Qed.

Lemma yields_symbols : yields (symbols env) numeric.
Proof.
  unfold symbols.
  eapply yields_bind; [apply yields_anything | intros name _].
  destruct (call env (Symbol name)) eqn:E.
  - apply call_Returned in E. subst. apply yields_ret. reflexivity.
  - intros st a st' H. discriminate.
Qed.

Lemma yields_numeric_unary_expressions ne :
  yields ne numeric -> yields (numeric_unary_expressions env ne) numeric.
Proof.
  intros Hne. unfold numeric_unary_expressions.
  eapply yields_bind; [apply yields_anything | intros op _].
  eapply yields_bind; [exact Hne | intros a Ha].
  apply yields_attempts; exact Ha.
Qed.

Lemma yields_numeric_binary_expressions ne :
  yields ne numeric -> yields (numeric_binary_expressions env ne) numeric.
Proof.
  intros Hne. unfold numeric_binary_expressions.
  eapply yields_bind; [apply yields_anything | intros op _].
  eapply yields_bind; [exact Hne | intros a Ha].
  eapply yields_bind; [exact Hne | intros b Hb].
  destruct (call env (Binary op a b false)) eqn:E.
  - apply call_Returned in E. subst. apply yields_ret.
    unfold numeric in *. cbn. rewrite Ha, Hb. reflexivity.
  - cbn. apply yields_assume_False.
Qed.

Lemma yields_numeric_ternary_expressions ne :
  yields ne numeric -> yields (numeric_ternary_expressions env ne) numeric.
Proof.
  intros Hne. unfold numeric_ternary_expressions.
  eapply yields_bind; [apply yields_anything | intros op _].
  eapply yields_bind; [exact Hne | intros a Ha].
  eapply yields_bind; [exact Hne | intros b Hb].
  eapply yields_bind; [exact Hne | intros c Hc].
  apply yields_attempts; unfold numeric in *; cbn; rewrite Ha, Hb, Hc;
    reflexivity.
Qed.

Lemma yields_numeric_expressions fuel :
  yields (numeric_expressions env fuel) numeric.
Proof.
  induction fuel as [| fuel IH].
  - intros st e st' H. discriminate.
  - cbn [numeric_expressions]. apply yields_one_of.
    repeat (apply Forall_cons || apply Forall_nil);
      auto using yields_floats, yields_symbols,
        yields_numeric_unary_expressions, yields_numeric_binary_expressions,
        yields_numeric_ternary_expressions.
Qed.

Lemma yields_relational_expressions ne :
  yields ne numeric -> yields (relational_expressions env ne) comparison.
Proof.
  intros Hne. unfold relational_expressions.
  eapply yields_bind; [apply yields_anything | intros op _].
  eapply yields_bind; [exact Hne | intros a Ha].
  eapply yields_bind; [exact Hne | intros b Hb].
  apply yields_attempts; unfold comparison; eauto 8.
Qed.

End Provenance.

(** C9: every expression drawn from [numeric_expressions] is built from
    literals, symbols and numeric compositions only; a draw of
    [relational_expressions] applies its comparator to two such
    expressions; hence in a case that the filter hands to the oracle no
    operand, at any depth, is a relational expression. *)
Theorem relational_expressions_are_never_operands env fuel st :
  (forall e st',
      numeric_expressions env fuel st = (Ok e, st') ->
      relation_free e = true) /\
  (forall e st',
      relational_expressions env (numeric_expressions env fuel) st
        = (Ok e, st') ->
      exists op a b evaluate,
        e = Relational op a b evaluate /\
        relation_free a = true /\ relation_free b = true) /\
  (forall e latex_str st',
      latex_printable_expressions env fuel st = (Ok (e, latex_str), st') ->
      forall x, In x (inner_operands e) -> is_relational x = false).
Proof.
  split; [| split].
  - intros e st' H. eapply yields_numeric_expressions; eauto.
  - intros e st' H.
    eapply (@yields_relational_expressions env _
              (yields_numeric_expressions env fuel)); eauto.
  - intros e latex_str st' H x Hin.
    unfold latex_printable_expressions in H.
    apply bind_Ok in H as (expr & st1 & Hd & H).
    destruct (S_latex env expr); [| discriminate].
    inversion H; subst.
    apply relation_free_not_relational.
    apply one_of_Ok in Hd as (s & st0 & Hs & Hd).
    destruct Hs as [<- | [<- | []]].
    + apply yields_numeric_expressions in Hd.
      eapply relation_free_inner_operands; eauto.
    + apply (@yields_relational_expressions env _
               (yields_numeric_expressions env fuel)) in Hd.
      destruct Hd as (op & a & b & ev & -> & Ha & Hb).
      cbn [inner_operands] in Hin.
      destruct Hin as [<- | Hin]; [exact Ha |].
      apply in_app_or in Hin as [Hin | [<- | Hin]].
      * exact (relation_free_inner_operands a Ha x Hin).
      * exact Hb.
      * exact (relation_free_inner_operands b Hb x Hin).
Qed.

Lemma relational_expressions_are_never_operands_witness :
  relation_free (Binary S_Add (Symbol "a") (Symbol "b") false) = true /\
  (exists op a b evaluate,
      Relational ops_lt (Symbol "a") (Symbol "b") true
        = Relational op a b evaluate /\
      relation_free a = true /\ relation_free b = true) /\
  (forall x,
      In x (inner_operands (Relational ops_lt (Symbol "a") (Symbol "b") true)) ->
      is_relational x = false).
Proof.
  split; [| split].
  - apply (proj1 (relational_expressions_are_never_operands Demo.env 2
                    (Demo.start [3; 0; 1; 0; 1; 1]%Z))
             _ (Demo.start [])).
    reflexivity.
  - apply (proj1 (proj2 (relational_expressions_are_never_operands Demo.env 1
                           (Demo.start [2; 1; 0; 1; 1]%Z)))
             _ (Demo.start [])).
    reflexivity.
  - apply (proj2 (proj2 (relational_expressions_are_never_operands Demo.env 1
                           (Demo.start [1; 2; 1; 0; 1; 1]%Z)))
             _ "a < b"%string (Demo.start [])).
    reflexivity.
Defined.

(** ** The differential test (C2, C10) *)

(** C2 as stated fails.  The choices [0; 0; 0; 34] give the oracle case
    of the literal zero with markup [0]; the parser raises on it, so the
    parsed result is absent and differs from the original, yet the test
    raises no report: zero is falsy and the case is discarded. *)
Lemma falsy_mismatch_is_not_reported :
  let pdf := Some (mkPDF "%PDF-1.5") in
  typesettable_expressions Demo.env 1 (Demo.start [0; 0; 0; 34]%Z)
    = (Ok (Float 0 35, "0"%string, pdf), mkState [] [] 1) /\
  equal_to_parsed Demo.env (Float 0 35) (parsed_or_absent Demo.env "0")
    = false /\
  fst (test_latex_roundtrip Demo.env (Float 0 35, "0"%string, pdf))
    = Discarded /\
  ~ (forall env expr latex_str pdf,
        equal_to_parsed env expr (parsed_or_absent env latex_str) = false <->
        fst (test_latex_roundtrip env (expr, latex_str, pdf))
          = Fails (expr, parsed_or_absent env latex_str, latex_str, pdf)).
Proof.
  cbn zeta. repeat split; try reflexivity.
  intros H.
  specialize (H Demo.env (Float 0 35) "0"%string (Some (mkPDF "%PDF-1.5"))).
  destruct H as [H _]. specialize (H eq_refl). discriminate.
Qed.

(** C2, amended: for an oracle case whose expression is truthy, an
    exception of the parser is recorded as an absent result and does not
    leave the test; the test passes when the parsed result equals the
    original, and otherwise raises the report made of the original, the
    parsed result or its absence, the markup and the artifact; no other
    report is ever raised. *)
Theorem test_latex_roundtrip_reports_mismatches env expr latex_str pdf :
  truth env expr = Returned true ->
  let parsed := parsed_or_absent env latex_str in
  let result := fst (test_latex_roundtrip env (expr, latex_str, pdf)) in
  (forall x, result <> Crashes x) /\
  (forall x, parse_latex env latex_str = Raised x ->
             result = Fails (expr, None, latex_str, pdf)) /\
  (equal_to_parsed env expr parsed = true -> result = Passes) /\
  (equal_to_parsed env expr parsed = false <->
   result = Fails (expr, parsed, latex_str, pdf)) /\
  (forall report, result = Fails report ->
                  report = (expr, parsed, latex_str, pdf)).
Proof.
  intros Ht. unfold parsed_or_absent, test_latex_roundtrip. rewrite Ht.
  destruct (parse_latex env latex_str) as [parsed | x];
    cbn [equal_to_parsed];
    try destruct (expr_equal env expr parsed) eqn:E; cbn [fst];
    repeat split; intros; try discriminate; try congruence.
Qed.

Lemma test_latex_roundtrip_reports_mismatches_witness :
  let expr := Binary S_Add (Symbol "a") (Symbol "b") false in
  let pdf := Some (mkPDF "%PDF-1.5") in
  let parsed := parsed_or_absent Demo.env "a + b" in
  let result := fst (test_latex_roundtrip Demo.env (expr, "a + b"%string, pdf)) in
  (forall x, result <> Crashes x) /\
  (forall x, parse_latex Demo.env "a + b" = Raised x ->
             result = Fails (expr, None, "a + b"%string, pdf)) /\
  (equal_to_parsed Demo.env expr parsed = true -> result = Passes) /\
  (equal_to_parsed Demo.env expr parsed = false <->
   result = Fails (expr, parsed, "a + b"%string, pdf)) /\
  (forall report, result = Fails report ->
                  report = (expr, parsed, "a + b"%string, pdf)).
Proof.
  apply (@test_latex_roundtrip_reports_mismatches Demo.env
           (Binary S_Add (Symbol "a") (Symbol "b") false)
           "a + b"%string (Some (mkPDF "%PDF-1.5"))).
  reflexivity.
Defined.

(** C10: a case whose expression is falsy is discarded by the test
    before the parser is called (the list of parser calls is empty); the
    outcome is neither a pass nor a report, and the engine goes on to
    the next example without counting the case as passed. *)
Theorem test_latex_roundtrip_discards_falsy env expr latex_str pdf :
  truth env expr = Returned false ->
  test_latex_roundtrip env (expr, latex_str, pdf) = (Discarded, []) /\
  (forall cs rest passed st st',
      typesettable_expressions env (S (List.length cs))
        (mkState cs (live_dirs st) (next_dir st))
        = (Ok (expr, latex_str, pdf), st') ->
      given env (cs :: rest) passed st = given env rest passed st').
Proof.
  intros Ht.
  assert (Htest : test_latex_roundtrip env (expr, latex_str, pdf)
                  = (Discarded, []))
    by (unfold test_latex_roundtrip; rewrite Ht; reflexivity).
  split; [exact Htest |].
  intros cs rest passed st st' Hdraw.
  cbn [given]. unfold run_example. rewrite Hdraw, Htest. reflexivity.
Qed.

Lemma test_latex_roundtrip_discards_falsy_witness :
  let pdf := Some (mkPDF "%PDF-1.5") in
  test_latex_roundtrip Demo.env (Float 0 35, "0"%string, pdf)
    = (Discarded, []) /\
  (forall cs rest passed st st',
      typesettable_expressions Demo.env (S (List.length cs))
        (mkState cs (live_dirs st) (next_dir st))
        = (Ok (Float 0 35, "0"%string, pdf), st') ->
      given Demo.env (cs :: rest) passed st = given Demo.env rest passed st').
Proof.
  apply (@test_latex_roundtrip_discards_falsy Demo.env (Float 0 35)
           "0"%string (Some (mkPDF "%PDF-1.5"))).
  reflexivity.
Defined.

(** A run on three examples: the literal zero is discarded, the symbol
    [a] passes, and the sum [a + b], which the parser does not
    understand, is reported. *)
Example given_three_examples :
  given Demo.env [[0; 0; 0; 34]; [0; 1; 0]; [0; 3; 0; 1; 0; 1; 1]]%Z 0
    (Demo.start [])
  = Falsified (Binary S_Add (Symbol "a") (Symbol "b") false, None,
               "a + b"%string, Some (mkPDF "%PDF-1.5")).
Proof. reflexivity. Qed.

(** * Further properties of the code *)

(** ** What every generated expression looks like *)

Lemma every_node_impl (P Q : Expr -> Prop) e :
  (forall x, P x -> Q x) -> every_node P e -> every_node Q e.
Proof.
  intros HPQ. induction e; cbn [every_node]; intuition auto.
Qed.

Lemma call_accepted env e e' :
  call env e = Returned e' -> e' = e /\ raises env e = None.
Proof.
  unfold call. destruct (raises env e); [discriminate |].
  intros H. inversion H. auto.
Qed.

Lemma yields_sampled_from A (elements : list A) :
  yields (sampled_from elements) (fun x => In x elements).
Proof. intros st x st' H. eapply sampled_from_Ok; eauto. Qed.

Lemma ascii_letters_length name :
  In name ascii_letters -> String.length name = 1%nat.
Proof.
  unfold ascii_letters. cbn [In].
  intros H.
  repeat (destruct H as [<- | H]; [reflexivity |]).
  destruct H.
Qed.

Section Built.

Variable env : Env.

(** Of the two attempts, only an accepted call is returned. *)
Lemma yields_accepted_attempt (P : Expr -> Prop) (first second : Expr) :
  (raises env first = None -> P first) ->
  (raises env second = None -> P second) ->
  yields (match call env first with
          | Returned e => ret e
          | Raised _ =>
              match call env second with
              | Returned e => ret e
              | Raised _ => assume_False
              end
          end) P.
Proof.
  intros H1 H2.
  destruct (call env first) eqn:E1.
  - apply call_accepted in E1 as [-> E1]. apply yields_ret, H1, E1.
  - destruct (call env second) eqn:E2.
    + apply call_accepted in E2 as [-> E2]. apply yields_ret, H2, E2.
    + apply yields_assume_False.
Qed.

Lemma built_floats : yields (floats env) (built env).
Proof.
  intros st e st' H.
  apply floats_Ok in H as (f & prec & -> & Hp & Hf & Hr).
  cbn. auto.
Qed.

Lemma built_symbols : yields (symbols env) (built env).
Proof.
  unfold symbols, _variable_names.
  eapply yields_bind; [apply yields_sampled_from | intros name Hin].
  destruct (call env (Symbol name)) eqn:E.
  - apply call_accepted in E as [-> E]. apply yields_ret.
    cbn. auto using ascii_letters_length.
  - intros st a st' H. discriminate.
Qed.

Lemma built_numeric_unary_expressions ne :
  yields ne (built env) -> yields (numeric_unary_expressions env ne) (built env).
Proof.
  intros Hne. unfold numeric_unary_expressions.
  eapply yields_bind; [apply yields_anything | intros op _].
  eapply yields_bind; [exact Hne | intros a Ha].
  apply yields_accepted_attempt; intros Hr; cbn; auto.
Qed.

Lemma built_numeric_binary_expressions ne :
  yields ne (built env) -> yields (numeric_binary_expressions env ne) (built env).
Proof.
  intros Hne. unfold numeric_binary_expressions.
  eapply yields_bind; [apply yields_anything | intros op _].
  eapply yields_bind; [exact Hne | intros a Ha].
  eapply yields_bind; [exact Hne | intros b Hb].
  destruct (call env (Binary op a b false)) eqn:E.
  - apply call_accepted in E as [-> E]. apply yields_ret. cbn. auto.
  - cbn. apply yields_assume_False.
Qed.

Lemma built_numeric_ternary_expressions ne :
  yields ne (built env) -> yields (numeric_ternary_expressions env ne) (built env).
Proof.
  intros Hne. unfold numeric_ternary_expressions.
  eapply yields_bind; [apply yields_anything | intros op _].
  eapply yields_bind; [exact Hne | intros a Ha].
  eapply yields_bind; [exact Hne | intros b Hb].
  eapply yields_bind; [exact Hne | intros c Hc].
  apply yields_accepted_attempt; intros Hr; cbn; auto.
Qed.

Lemma built_numeric_expressions fuel :
  yields (numeric_expressions env fuel) (built env).
Proof.
  induction fuel as [| fuel IH].
  - intros st e st' H. discriminate.
  - cbn [numeric_expressions]. apply yields_one_of.
    repeat (apply Forall_cons || apply Forall_nil);
      auto using built_floats, built_symbols,
        built_numeric_unary_expressions, built_numeric_binary_expressions,
        built_numeric_ternary_expressions.
Qed.

(** The filter hands on the expression it drew, with the markup the
    printer returned for it. *)
Lemma latex_printable_expressions_Ok fuel st expr latex_str st' :
  latex_printable_expressions env fuel st = (Ok (expr, latex_str), st') ->
  one_of [numeric_expressions env fuel;
          relational_expressions env (numeric_expressions env fuel)] st
    = (Ok expr, st') /\
  S_latex env expr = Returned latex_str.
Proof.
  unfold latex_printable_expressions. intros H.
  apply bind_Ok in H as (e & st1 & Hd & H).
  destruct (S_latex env e) eqn:E; [| discriminate].
  inversion H; subst. auto.
Qed.

End Built.

(** X2: in every expression drawn from [numeric_expressions], at any
    depth, a literal has a precision in [1, 35] and a 64-bit value, a
    symbol is named by one ASCII letter, and a binary composition is
    unevaluated (the binary strategy has no working evaluating
    attempt). *)
Theorem numeric_expressions_draw_shape env fuel st e st' :
  numeric_expressions env fuel st = (Ok e, st') ->
  every_node as_drawn e.
Proof.
  intros H. apply built_numeric_expressions in H.
  eapply every_node_impl; [| exact H]. cbn. intuition.
Qed.

Lemma numeric_expressions_draw_shape_witness :
  every_node as_drawn (Binary S_Add (Symbol "a") (Float 0 35) false).
Proof.
  apply (@numeric_expressions_draw_shape Demo.env 2
           (Demo.start [3; 0; 1; 0; 0; 0; 34]%Z) _ (Demo.start [])).
  reflexivity.
Defined.

(** ** Choices consumed and depth of recursion *)

Lemma spends_ret A (a : A) (cost : A -> nat) :
  (cost a <= 0)%nat -> spends (ret a) cost.
Proof.
  intros Hc st b st' H. inversion H; subst.
  exists []. split; [reflexivity | exact Hc].
Qed.

Lemma spends_assume_False A (cost : A -> nat) : spends assume_False cost.
Proof. intros st a st' H. discriminate. Qed.

Lemma spends_next_choice : spends next_choice (fun _ => 1%nat).
Proof.
  intros st c st' H. apply next_choice_inv in H as (E & _ & _).
  exists [c]. split; [exact E | cbn; lia].
Qed.

(** What the continuation still has to account for is the cost of the
    result less what the first draw already consumed. *)
Lemma spends_bind A B (s : Strategy A) (k : A -> Strategy B) first cost :
  spends s first ->
  (forall a, spends (k a) (fun b => cost b - first a)%nat) ->
  spends (bind s k) cost.
Proof.
  intros Hs Hk st b st' H.
  apply bind_Ok in H as (a & st1 & Ha & Hb).
  apply Hs in Ha as (used1 & E1 & L1).
  apply Hk in Hb as (used2 & E2 & L2).
  exists (used1 ++ used2). split.
  - rewrite E1, E2. apply app_assoc.
  - rewrite length_app. lia.
Qed.

(** Drawing from a table consumes a prefix, possibly empty (a table of
    one operator consumes nothing). *)
Lemma spends_sampled_from A (elements : list A) :
  spends (sampled_from elements) (fun _ => 0%nat).
Proof.
  destruct (sampled_from_unfold elements) as [(x & _ & ->) | ->];
    [apply spends_ret; lia |].
  eapply spends_bind; [apply spends_next_choice | intros c].
  destruct (pick elements c);
    [apply spends_ret; lia | apply spends_assume_False].
Qed.

Lemma spends_one_of A (strategies : list (Strategy A)) cost :
  Forall (fun s => spends s (fun a => cost a - 1)%nat) strategies ->
  spends (one_of strategies) cost.
Proof.
  intros Hall. unfold one_of.
  eapply spends_bind; [apply spends_next_choice | intros c].
  destruct (pick strategies c) as [s |] eqn:E.
  - rewrite Forall_forall in Hall. apply Hall. eapply pick_In; eauto.
  - apply spends_assume_False.
Qed.

Section Spending.

Variable env : Env.

Lemma spends_attempts (cost : Expr -> nat) (first second : Expr) :
  (cost first <= 0)%nat -> (cost second <= 0)%nat ->
  spends (match call env first with
          | Returned e => ret e
          | Raised _ =>
              match call env second with
              | Returned e => ret e
              | Raised _ => assume_False
              end
          end) cost.
Proof.
  intros H1 H2.
  destruct (call env first) eqn:E1.
  - apply call_accepted in E1 as [-> _]. apply spends_ret, H1.
  - destruct (call env second) eqn:E2.
    + apply call_accepted in E2 as [-> _]. apply spends_ret, H2.
    + apply spends_assume_False.
Qed.

(** A literal costs the two choices of its value and its precision. *)
Lemma spends_floats : spends (floats env) (fun e => S (size e) - 1)%nat.
Proof.
  unfold floats, st_floats, integers.
  eapply spends_bind with (first := fun _ => 1%nat).
  { eapply spends_bind; [apply spends_next_choice | intros c].
    apply spends_ret. lia. }
  intros f. eapply spends_bind with (first := fun _ => 1%nat).
  { eapply spends_bind; [apply spends_next_choice | intros c].
    apply spends_ret. lia. }
  intros prec. destruct (call env (Float f prec)) eqn:E.
  - apply call_accepted in E as [-> _]. apply spends_ret. cbn. lia.
  - apply spends_assume_False.
Qed.

(** A symbol costs the choice of its name among the 52 letters. *)
Lemma spends_symbols : spends (symbols env) (fun e => S (size e) - 1)%nat.
Proof.
  unfold symbols, _variable_names.
  eapply spends_bind with (first := fun _ => 1%nat).
  { change (sampled_from ascii_letters)
      with (bind next_choice (fun c => match pick ascii_letters c with
                                       | Some x => ret x
                                       | None => @assume_False string
                                       end)).
    eapply spends_bind; [apply spends_next_choice | intros c].
    destruct (pick ascii_letters c);
      [apply spends_ret; lia | apply spends_assume_False]. }
  intros name. destruct (call env (Symbol name)) eqn:E.
  - apply call_accepted in E as [-> _]. apply spends_ret. cbn. lia.
  - intros st a st' H. discriminate.
Qed.

(** A composition costs what its operands cost; the draw of the
    operator is not counted. *)
Lemma spends_numeric_unary_expressions ne :
  spends ne (fun e => S (size e)) ->
  spends (numeric_unary_expressions env ne) (fun e => S (size e) - 1)%nat.
Proof.
  intros Hne. unfold numeric_unary_expressions, _numeric_unary_ops.
  eapply spends_bind; [apply spends_sampled_from | intros op].
  eapply spends_bind; [exact Hne | intros a].
  apply spends_attempts; cbn [size]; lia.
Qed.

Lemma spends_numeric_binary_expressions ne :
  spends ne (fun e => S (size e)) ->
  spends (numeric_binary_expressions env ne) (fun e => S (size e) - 1)%nat.
Proof.
  intros Hne. unfold numeric_binary_expressions, _numeric_binary_ops.
  eapply spends_bind; [apply spends_sampled_from | intros op].
  eapply spends_bind; [exact Hne | intros a].
  eapply spends_bind; [exact Hne | intros b].
  destruct (call env (Binary op a b false)) eqn:E.
  - apply call_accepted in E as [-> _]. apply spends_ret.
    cbn [size]; lia.
  - cbn. apply spends_assume_False.
Qed.

Lemma spends_numeric_ternary_expressions ne :
  spends ne (fun e => S (size e)) ->
  spends (numeric_ternary_expressions env ne) (fun e => S (size e) - 1)%nat.
Proof.
  intros Hne. unfold numeric_ternary_expressions, _numeric_ternary_ops.
  eapply spends_bind; [apply spends_sampled_from | intros op].
  eapply spends_bind; [exact Hne | intros a].
  eapply spends_bind; [exact Hne | intros b].
  eapply spends_bind; [exact Hne | intros c].
  apply spends_attempts; cbn [size]; lia.
Qed.

Lemma spends_numeric_expressions fuel :
  spends (numeric_expressions env fuel) (fun e => S (size e)).
Proof.
  induction fuel as [| fuel IH].
  - intros st e st' H. discriminate.
  - cbn [numeric_expressions]. apply spends_one_of.
    repeat (apply Forall_cons || apply Forall_nil);
      auto using spends_floats, spends_symbols,
        spends_numeric_unary_expressions, spends_numeric_binary_expressions,
        spends_numeric_ternary_expressions.
Qed.

End Spending.

(** X3: a draw from [numeric_expressions] consumes a prefix of the
    choice sequence and leaves the rest untouched, and it consumes more
    choices than the expression it yields has constructor calls: every
    call costs the choice of its branch, and a literal or a symbol at
    least one more.  (The draw of the operator is not counted: from the
    one-element ternary table it consumes nothing.) *)
Theorem numeric_expressions_size_bound env fuel st e st' :
  numeric_expressions env fuel st = (Ok e, st') ->
  exists used,
    choices st = used ++ choices st' /\
    (size e < List.length used)%nat.
Proof. intros H. apply spends_numeric_expressions in H. exact H. Qed.

(** A limit of three symbols: four constructor calls, seven choices. *)
Lemma numeric_expressions_size_bound_witness :
  exists used,
    [4; 1; 0; 1; 1; 1; 2; 9; 9]%Z = used ++ [9; 9]%Z /\
    (size (Ternary S_Limit (Symbol "a") (Symbol "b") (Symbol "c") false)
     < List.length used)%nat.
Proof.
  apply (@numeric_expressions_size_bound Demo.env 2
           (Demo.start [4; 1; 0; 1; 1; 1; 2; 9; 9]%Z) _ (Demo.start [9; 9]%Z)).
  reflexivity.
Defined.

(** X4: the recursion of [numeric_expressions] ends.  Every level of
    the deferred strategy consumes a choice, so a draw given more fuel
    than there are choices ends with an expression, a rejection, an
    exception or an exhausted choice sequence, never for lack of fuel;
    and it creates or removes no directory. *)
Theorem numeric_expressions_terminates env fuel st :
  (List.length (choices st) < fuel)%nat ->
  fst (numeric_expressions env fuel st) <> OutOfFuel /\
  live_dirs (snd (numeric_expressions env fuel st)) = live_dirs st /\
  (List.length (choices (snd (numeric_expressions env fuel st)))
   <= List.length (choices st))%nat.
Proof.
  intros Hlt.
  destruct (tame_numeric_expressions env fuel st) as (Hl & _ & Hc & Hf).
  auto.
Qed.

Lemma numeric_expressions_terminates_witness :
  let st := Demo.start [2; 0; 2; 0; 2; 0; 1; 0]%Z in
  fst (numeric_expressions Demo.env 9 st) <> OutOfFuel /\
  live_dirs (snd (numeric_expressions Demo.env 9 st)) = live_dirs st /\
  (List.length (choices (snd (numeric_expressions Demo.env 9 st)))
   <= List.length (choices st))%nat.
Proof.
  intros st.
  apply (@numeric_expressions_terminates Demo.env 9 st).
  cbn. lia.
Defined.

(** ** Where an exception can come from *)

Lemma raises_within_ret A P (a : A) : raises_within P (ret a).
Proof. intros st x H. discriminate. Qed.

Lemma raises_within_assume_False A P : raises_within P (@assume_False A).
Proof. intros st x H. discriminate. Qed.

Lemma raises_within_next_choice P : raises_within P next_choice.
Proof.
  intros st x. unfold next_choice. destruct (choices st); discriminate.
Qed.

Lemma raises_within_bind A B P Q (s : Strategy A) (k : A -> Strategy B) :
  raises_within P s -> yields s Q ->
  (forall a, Q a -> raises_within P (k a)) ->
  raises_within P (bind s k).
Proof.
  intros Hs Hy Hk st x. unfold bind.
  specialize (Hs st). specialize (Hy st).
  destruct (s st) as [[a | | y | | ] st1]; cbn [fst] in *;
    try discriminate.
  - apply (Hk a); eauto.
  - intros H. inversion H; subst. apply Hs. reflexivity.
Qed.

Lemma raises_within_sampled_from A P (elements : list A) :
  raises_within P (sampled_from elements).
Proof.
  destruct (sampled_from_unfold elements) as [(x & _ & ->) | ->];
    [apply raises_within_ret |].
  eapply raises_within_bind;
    [apply raises_within_next_choice | apply yields_anything | intros c _].
  destruct (pick elements c);
    [apply raises_within_ret | apply raises_within_assume_False].
Qed.

Lemma raises_within_one_of A P (strategies : list (Strategy A)) :
  Forall (raises_within P) strategies -> raises_within P (one_of strategies).
Proof.
  intros Hall. unfold one_of.
  eapply raises_within_bind;
    [apply raises_within_next_choice | apply yields_anything | intros c _].
  destruct (pick strategies c) as [s |] eqn:E.
  - rewrite Forall_forall in Hall. apply Hall. eapply pick_In; eauto.
  - apply raises_within_assume_False.
Qed.

Section Escapes.

Variable env : Env.

Ltac guarded :=
  repeat match goal with
         | |- raises_within _ (bind _ _) =>
             eapply raises_within_bind; [| apply yields_anything |]
         | |- raises_within _ (sampled_from _) => apply raises_within_sampled_from
         | |- raises_within _ (integers _ _) => unfold integers
         | |- raises_within _ st_floats => unfold st_floats
         | |- raises_within _ next_choice => apply raises_within_next_choice
         | |- raises_within _ (ret _) => apply raises_within_ret
         | |- raises_within _ assume_False => apply raises_within_assume_False
         | |- raises_within _ (match ?r with Returned _ => _ | Raised _ => _ end) =>
             destruct r
         | |- forall _, _ => intro
         | H : raises_within ?P ?s |- raises_within ?P ?s => exact H
         end.

Lemma raises_within_floats : raises_within (from_Symbol env) (floats env).
Proof. unfold floats. guarded. Qed.

Lemma raises_within_symbols : raises_within (from_Symbol env) (symbols env).
Proof.
  unfold symbols, _variable_names.
  eapply raises_within_bind;
    [apply raises_within_sampled_from | apply yields_sampled_from |].
  intros name Hin st x. unfold call.
  destruct (raises env (Symbol name)) as [y |] eqn:E; cbn [fst];
    [| discriminate].
  intros H. inversion H; subst. exists name. auto.
Qed.

Lemma raises_within_numeric_expressions fuel :
  raises_within (from_Symbol env) (numeric_expressions env fuel).
Proof.
  induction fuel as [| fuel IH].
  - intros st x H. discriminate.
  - cbn [numeric_expressions]. apply raises_within_one_of.
    repeat (apply Forall_cons || apply Forall_nil).
    + apply raises_within_floats.
    + apply raises_within_symbols.
    + unfold numeric_unary_expressions, _numeric_unary_ops. guarded.
    + unfold numeric_binary_expressions, _numeric_binary_ops. guarded.
    + unfold numeric_ternary_expressions, _numeric_ternary_ops. guarded.
Qed.

Lemma raises_within_latex_printable_expressions fuel :
  raises_within (from_Symbol env) (latex_printable_expressions env fuel).
Proof.
  pose proof (raises_within_numeric_expressions fuel) as Hne.
  unfold latex_printable_expressions.
  eapply raises_within_bind; [| apply yields_anything |].
  - apply raises_within_one_of.
    repeat (apply Forall_cons || apply Forall_nil); [exact Hne |].
    unfold relational_expressions, _comparators. guarded.
  - intros expr _. destruct (S_latex env expr);
      [apply raises_within_ret | apply raises_within_assume_False].
Qed.

End Escapes.

(** X5: an exception that leaves [latex_printable_expressions], that
    is, any of the strategies that build and print expressions, was
    raised by [S.Symbol] on a drawn one-letter name.  It is the one
    library call of these strategies outside a [try] block: what the
    other constructors and the printer raise never gets out. *)
Theorem latex_printable_expressions_raises_only_from_Symbol env fuel st x :
  fst (latex_printable_expressions env fuel st) = Raise x ->
  exists name,
    In name ascii_letters /\ raises env (Symbol name) = Some x.
Proof. apply raises_within_latex_printable_expressions. Qed.

Lemma latex_printable_expressions_raises_only_from_Symbol_witness :
  exists name,
    In name ascii_letters /\
    raises Variants.env_q (Symbol name)
      = Some (Exception "ValueError" "no such symbol").
Proof.
  apply (@latex_printable_expressions_raises_only_from_Symbol Variants.env_q 2
           (Demo.start [0; 1; 16]%Z)).
  reflexivity.
Defined.

(** ** What the oracle adds to a filtered case *)

(** An oracle case read backwards. *)
Lemma typesettable_expressions_Ok_inv env fuel st expr latex_str pdf st' :
  typesettable_expressions env fuel st = (Ok (expr, latex_str, pdf), st') ->
  exists st1 wrapped,
    latex_printable_expressions env fuel st = (Ok (expr, latex_str), st1) /\
    S_latex env expr = Returned latex_str /\
    typeset env (next_dir st) latex_str = Returned wrapped /\
    pdf = Some wrapped /\
    choices st' = choices st1 /\
    next_dir st' = S (next_dir st).
Proof.
  unfold typesettable_expressions. intros H.
  apply bind_Ok in H as ([e s] & st1 & Hf & H).
  destruct (tame_latex_printable_expressions env fuel st) as (_ & Hn & _ & _).
  rewrite Hf in Hn. cbn [snd] in Hn.
  unfold bind, mkdtemp, rmtree, assume, assume_False, ret in H.
  cbn [choices live_dirs next_dir] in H.
  destruct (typeset env (next_dir st1) s) as [wrapped |] eqn:Ht;
    cbn in H; [| discriminate].
  inversion H; subst.
  exists st1, wrapped. rewrite <- Hn.
  pose proof (latex_printable_expressions_Ok env fuel st Hf) as [_ Hs].
  auto 7.
Qed.

(** X6: an oracle case is the case the filter yielded, unchanged: its
    markup is what [S.latex] returned for its expression, its artifact
    is what the three steps produced for the document of that markup in
    the directory created for the draw, and the oracle consumed no
    choice of its own. *)
Theorem typesettable_expressions_Ok env fuel st expr latex_str pdf st' :
  typesettable_expressions env fuel st = (Ok (expr, latex_str, pdf), st') ->
  exists st1 wrapped,
    latex_printable_expressions env fuel st = (Ok (expr, latex_str), st1) /\
    S_latex env expr = Returned latex_str /\
    typeset env (next_dir st) latex_str = Returned wrapped /\
    pdf = Some wrapped /\
    choices st' = choices st1 /\
    next_dir st' = S (next_dir st).
Proof. apply typesettable_expressions_Ok_inv. Qed.

Lemma typesettable_expressions_Ok_witness :
  exists st1 wrapped,
    latex_printable_expressions Demo.env 2 (Demo.start [0; 3; 0; 1; 0; 1; 1]%Z)
      = (Ok (Binary S_Add (Symbol "a") (Symbol "b") false, "a + b"%string), st1) /\
    S_latex Demo.env (Binary S_Add (Symbol "a") (Symbol "b") false)
      = Returned "a + b"%string /\
    typeset Demo.env 0 "a + b" = Returned wrapped /\
    Some (mkPDF "%PDF-1.5") = Some wrapped /\
    @nil Z = choices st1 /\
    1%nat = 1%nat.
Proof.
  apply (@typesettable_expressions_Ok Demo.env 2
           (Demo.start [0; 3; 0; 1; 0; 1; 1]%Z)
           (Binary S_Add (Symbol "a") (Symbol "b") false)
           "a + b"%string (Some (mkPDF "%PDF-1.5"))
           (mkState [] [] 1)).
  reflexivity.
Defined.

(** X7: when no directory number at or above [next_dir] is in use, the
    oracle leaves exactly the directories it found, whatever the outcome
    of the draw, and the state it leaves has the same property: draws
    made one after the other leave no directory behind. *)
Theorem typesettable_expressions_restores_dirs env fuel st :
  fresh_dirs st ->
  let st' := snd (typesettable_expressions env fuel st) in
  live_dirs st' = live_dirs st /\
  fresh_dirs st' /\
  (next_dir st <= next_dir st')%nat.
Proof.
  intros Hfresh. unfold typesettable_expressions, bind.
  destruct (tame_latex_printable_expressions env fuel st) as (Hl & Hn & _ & _).
  destruct (latex_printable_expressions env fuel st)
    as [[[e s] | | x | | ] st1]; cbn [fst snd] in *;
    try (unfold fresh_dirs; rewrite Hl, Hn; repeat split; auto).
  unfold mkdtemp, rmtree, assume, assume_False, ret.
  assert (Hsame :
    filter (fun d => negb (Nat.eqb d (next_dir st1)))
           (next_dir st1 :: live_dirs st1) = live_dirs st1).
  { cbn [filter]. rewrite Nat.eqb_refl. cbn [negb].
    apply forallb_filter_id. apply forallb_forall.
    intros d Hd. rewrite Hl in Hd. apply Hfresh in Hd.
    rewrite Hn. apply negb_true_iff, Nat.eqb_neq. lia. }
  destruct (typeset env (next_dir st1) s);
    cbn [fst snd next_dir live_dirs choices]; unfold fresh_dirs;
    cbn [next_dir live_dirs]; rewrite Hsame, Hl, Hn;
    (split; [reflexivity | split; [| lia]]);
    intros d Hd; apply Hfresh in Hd; lia.
Qed.

Lemma typesettable_expressions_restores_dirs_witness :
  let st := mkState [0; 3; 0; 1; 0; 1; 1]%Z [4; 1] 7 in
  let st' := snd (typesettable_expressions Demo.env 2 st) in
  live_dirs st' = live_dirs st /\
  fresh_dirs st' /\
  (next_dir st <= next_dir st')%nat.
Proof.
  intros st.
  apply (@typesettable_expressions_restores_dirs Demo.env 2 st).
  intros d Hd. cbn in Hd. cbn. lia.
Defined.

(** ** The outcomes of the test *)

(** The decision table of the test. *)
Lemma test_latex_roundtrip_cases env expr latex_str pdf :
  let result := fst (test_latex_roundtrip env (expr, latex_str, pdf)) in
  let calls := snd (test_latex_roundtrip env (expr, latex_str, pdf)) in
  let same := equal_to_parsed env expr (parsed_or_absent env latex_str) in
  (result = Passes <-> truth env expr = Returned true /\ same = true) /\
  (forall report,
      result = Fails report <->
      truth env expr = Returned true /\ same = false /\
      report = (expr, parsed_or_absent env latex_str, latex_str, pdf)) /\
  (result = Discarded <-> truth env expr = Returned false) /\
  (forall x, result = Crashes x <-> truth env expr = Raised x) /\
  (calls = [latex_str] <-> truth env expr = Returned true) /\
  (calls = [] <-> truth env expr <> Returned true).
Proof.
  unfold parsed_or_absent, test_latex_roundtrip.
  destruct (truth env expr) as [[|] | y];
    [ destruct (parse_latex env latex_str) as [parsed | z];
      cbn [equal_to_parsed];
      try destruct (expr_equal env expr parsed) | |];
    cbn [fst snd]; repeat split; intros;
    repeat match goal with
           | H : _ /\ _ |- _ => destruct H
           end;
    try discriminate; try congruence.
Qed.

(** X8: what the test does with a case is decided by the truth value of
    the expression first.  The parser is called only on a truthy
    expression, once, on the markup of the case; a falsy expression is
    discarded; an error of the truth test leaves the test as it is,
    before any parsing; a pass and a report both need a truthy
    expression. *)
Theorem test_latex_roundtrip_outcomes env expr latex_str pdf :
  let result := fst (test_latex_roundtrip env (expr, latex_str, pdf)) in
  let calls := snd (test_latex_roundtrip env (expr, latex_str, pdf)) in
  let same := equal_to_parsed env expr (parsed_or_absent env latex_str) in
  (result = Passes <-> truth env expr = Returned true /\ same = true) /\
  (forall report,
      result = Fails report <->
      truth env expr = Returned true /\ same = false /\
      report = (expr, parsed_or_absent env latex_str, latex_str, pdf)) /\
  (result = Discarded <-> truth env expr = Returned false) /\
  (forall x, result = Crashes x <-> truth env expr = Raised x) /\
  (calls = [latex_str] <-> truth env expr = Returned true) /\
  (calls = [] <-> truth env expr <> Returned true).
Proof. apply test_latex_roundtrip_cases. Qed.

(** [run_example] read backwards. *)
Lemma run_example_Fails env cs st report st' :
  run_example env cs st = (Fails report, st') ->
  exists case,
    typesettable_expressions env (S (List.length cs))
      (mkState cs (live_dirs st) (next_dir st)) = (Ok case, st') /\
    fst (test_latex_roundtrip env case) = Fails report.
Proof.
  unfold run_example.
  destruct (typesettable_expressions env _ _) as [[case | | x | | ] st1];
    intros H; inversion H; subst; eauto.
Qed.

(** X9: a report that ends a run can be blamed on the parser: its
    markup is what the printer returned for its expression, the
    document of that markup compiled, the expression is truthy, and the
    parsed result, or its absence, differs from the expression. *)
Theorem given_reports_are_genuine env examples passed st report :
  given env examples passed st = Falsified report ->
  genuine_report env report.
Proof.
  revert passed st.
  induction examples as [| cs rest IH]; intros passed st H.
  - discriminate.
  - cbn [given] in H.
    destruct (run_example env cs st) as [[| | r | x] st1] eqn:Hrun;
      try discriminate; eauto.
    inversion H; subst r.
    apply run_example_Fails in Hrun as ([[expr latex_str] pdf] & Hdraw & Htest).
    apply typesettable_expressions_Ok_inv in Hdraw
      as (st0 & wrapped & _ & Hs & _ & Hpdf & _ & _).
    destruct (test_latex_roundtrip_cases env expr latex_str pdf)
      as (_ & Hfails & _).
    apply Hfails in Htest as (Ht & Hneq & ->).
    cbn. eauto 6.
Qed.

Lemma given_reports_are_genuine_witness :
  genuine_report Demo.env
    (Binary S_Add (Symbol "a") (Symbol "b") false, None,
     "a + b"%string, Some (mkPDF "%PDF-1.5")).
Proof.
  apply (@given_reports_are_genuine Demo.env
           [[0; 0; 0; 34]; [0; 1; 0]; [0; 3; 0; 1; 0; 1; 1]]%Z 0
           (Demo.start [])).
  reflexivity.
Defined.


(** ** Expressions that simplify *)

(** X11: [simplifiable_expressions] yields exactly the expressions that
    [numeric_expressions] yields and on which [simplify] returns, and it
    yields them as drawn: the simplified form is dropped.  When
    [simplify] raises, the draw is rejected. *)
Theorem simplifiable_expressions_spec env simplify fuel st :
  (forall e st',
      simplifiable_expressions env simplify fuel st = (Ok e, st') <->
      numeric_expressions env fuel st = (Ok e, st') /\
      exists simplified, simplify e = Returned simplified) /\
  (forall e st' x,
      numeric_expressions env fuel st = (Ok e, st') ->
      simplify e = Raised x ->
      simplifiable_expressions env simplify fuel st = (Reject, st')).
Proof.
  unfold simplifiable_expressions, bind. split.
  - intros e st'. split.
    + destruct (numeric_expressions env fuel st) as [[a | | y | | ] st1];
        try discriminate.
      destruct (simplify a) as [r | y] eqn:E; cbn; [| discriminate].
      intros H. inversion H; subst. eauto.
    + intros [Hd [r Hr]]. rewrite Hd, Hr. reflexivity.
  - intros e st' x Hd Hr. rewrite Hd, Hr. reflexivity.
Qed.

Lemma simplifiable_expressions_spec_witness :
  simplifiable_expressions Demo.env Variants.simplify 2
    (Demo.start [2; 0; 1; 0]%Z)
    = (Ok (Unary S_sin (Symbol "a") false), Demo.start []) /\
  simplifiable_expressions Demo.env Variants.simplify 2
    (Demo.start [2; 11; 1; 0]%Z)
    = (Reject, Demo.start []).
Proof.
  split.
  - apply (proj1 (simplifiable_expressions_spec Demo.env Variants.simplify 2
                    (Demo.start [2; 0; 1; 0]%Z))).
    split; [reflexivity | eexists; reflexivity].
  - apply (proj2 (simplifiable_expressions_spec Demo.env Variants.simplify 2
                    (Demo.start [2; 11; 1; 0]%Z))
             (Unary S_factorial (Symbol "a") false) (Demo.start [])
             (Exception "ValueError" "cannot simplify"));
      reflexivity.
Defined.

(** ** The document *)

Lemma list_ascii_of_string_append (a b : string) :
  list_ascii_of_string (a ++ b) =
  (list_ascii_of_string a ++ list_ascii_of_string b)%list.
Proof.
  induction a as [| c a IH]; cbn; [reflexivity | rewrite IH; reflexivity].
Qed.

Lemma list_ascii_of_string_inj (a b : string) :
  list_ascii_of_string a = list_ascii_of_string b -> a = b.
Proof.
  intros H.
  rewrite <- (string_of_list_ascii_of_string a),
          <- (string_of_list_ascii_of_string b), H.
  reflexivity.
Qed.

Lemma string_length_list (a : string) :
  String.length a = List.length (list_ascii_of_string a).
Proof. induction a as [| c a IH]; cbn; [reflexivity | rewrite IH; reflexivity]. Qed.

(** X12: the document holds the markup verbatim between the fixed head
    and the fixed tail of the template: it is 75 characters longer than
    the markup, and two markups give the same document only when they
    are the same. *)
Theorem LATEX_DOC_embeds_markup (s1 s2 : string) :
  String.length (LATEX_DOC s1) = (75 + String.length s1)%nat /\
  (LATEX_DOC s1 = LATEX_DOC s2 <-> s1 = s2).
Proof.
  unfold LATEX_DOC. split.
  - rewrite !string_length_list, !list_ascii_of_string_append, !length_app.
    rewrite <- !string_length_list.
    change (String.length LATEX_DOC_head) with 56%nat.
    change (String.length LATEX_DOC_tail) with 19%nat. lia.
  - split; [| intros ->; reflexivity].
    intros H. apply (f_equal list_ascii_of_string) in H.
    rewrite !list_ascii_of_string_append in H.
    apply app_inv_head in H. apply app_inv_tail in H.
    apply list_ascii_of_string_inj, H.
Qed.

(** ** Comparisons *)

(** X13: when the comparison functions take no [evaluate] keyword, as
    those of Python's [operator] module do, the first attempt of
    [relational_expressions] always raises, and every expression the
    strategy yields is the plain comparison [op(a, b)] of two operands
    drawn from the operand strategy, accepted by the library. *)
Theorem relational_expressions_are_evaluated env ne st e st' :
  (forall op a b, raises env (Relational op a b false) <> None) ->
  relational_expressions env ne st = (Ok e, st') ->
  exists op a b st1 st2,
    e = Relational op a b true /\
    raises env e = None /\
    In op _comparators_elements /\
    ne st1 = (Ok a, st2) /\ ne st2 = (Ok b, st').
Proof.
  intros Hkw H. unfold relational_expressions in H.
  apply bind_Ok in H as (op & st1 & Hop & H).
  apply bind_Ok in H as (a & st2 & Ha & H).
  apply bind_Ok in H as (b & st3 & Hb & H).
  apply sampled_from_Ok in Hop.
  unfold call in H.
  destruct (raises env (Relational op a b false)) eqn:E1;
    [| exfalso; eapply Hkw; eauto].
  destruct (raises env (Relational op a b true)) eqn:E2; [discriminate |].
  inversion H; subst.
  exists op, a, b, st1, st2. auto.
Qed.

Lemma relational_expressions_are_evaluated_witness :
  exists op a b st1 st2,
    Relational ops_lt (Symbol "a") (Symbol "b") true = Relational op a b true /\
    raises Demo.env (Relational ops_lt (Symbol "a") (Symbol "b") true) = None /\
    In op _comparators_elements /\
    numeric_expressions Demo.env 1 st1 = (Ok a, st2) /\
    numeric_expressions Demo.env 1 st2 = (Ok b, Demo.start []).
Proof.
  apply (@relational_expressions_are_evaluated Demo.env
           (numeric_expressions Demo.env 1)
           (Demo.start [2; 1; 0; 1; 1]%Z)).
  - intros op a b. cbn. discriminate.
  - reflexivity.
Defined.

(** ** The earlier notebook *)

(** X14: in the earlier notebook [floats] keeps a precision from 0 to
    34 only, and its constructor call is not guarded: a literal the
    library refuses raises out of the strategy instead of rejecting the
    draw. *)
Theorem Hypothesize_floats_spec env st :
  (forall e st',
      Hypothesize.floats env st = (Ok e, st') ->
      exists f prec,
        e = Float f prec /\ (0 <= prec <= 34)%Z /\
        raises env (Float f prec) = None) /\
  (forall precision f rest,
      choices st = precision :: f :: rest ->
      (0 <= precision <= 34)%Z ->
      forall x,
        raises env (Float (f mod 2 ^ 64) precision) = Some x ->
        fst (Hypothesize.floats env st) = Raise x) /\
  (forall precision rest,
      choices st = precision :: rest ->
      (precision < 0 \/ 34 < precision)%Z ->
      Hypothesize.floats env st
        = (Reject, mkState rest (live_dirs st) (next_dir st))).
Proof.
  unfold Hypothesize.floats, Hypothesize.st_integers. split; [| split].
  - intros e st' H.
    apply bind_Ok in H as (precision & st1 & _ & H).
    apply bind_Ok in H as ([] & st2 & Hlo & H).
    apply bind_Ok in H as ([] & st3 & Hhi & H).
    apply bind_Ok in H as (f & st4 & _ & H).
    destruct (call env (Float f precision)) eqn:E; [| discriminate].
    apply call_accepted in E as [-> E]. inversion H; subst.
    exists f, precision. repeat split; try assumption.
    + destruct (Z.ltb_spec (-1) precision); [lia | discriminate].
    + destruct (Z.ltb_spec precision 35); [lia | discriminate].
  - intros precision f rest Hc Hp x Hx.
    unfold bind, next_choice, st_floats, bind, next_choice, call.
    rewrite Hc.
    destruct (Z.ltb_spec (-1) precision); [| lia].
    destruct (Z.ltb_spec precision 35); [| lia].
    cbn -[Z.pow Z.modulo]. rewrite Hx. reflexivity.
  - intros precision rest Hc Hp.
    unfold bind, next_choice. rewrite Hc.
    destruct (Z.ltb_spec (-1) precision); cbn; [| reflexivity].
    destruct (Z.ltb_spec precision 35); cbn; [lia | reflexivity].
Qed.

Lemma Hypothesize_floats_spec_witness :
  (exists f prec,
      Float 0 34 = Float f prec /\ (0 <= prec <= 34)%Z /\
      raises Demo.env (Float f prec) = None) /\
  fst (Hypothesize.floats Demo.env (Demo.start [0; 2047 * 2 ^ 52]%Z))
    = Raise (Exception "ValueError" "not a finite number") /\
  Hypothesize.floats Demo.env (Demo.start [35; 0]%Z)
    = (Reject, mkState [0]%Z [] 0).
Proof.
  split; [| split].
  - apply (proj1 (Hypothesize_floats_spec Demo.env (Demo.start [34; 0]%Z))
             (Float 0 34) (Demo.start [])).
    reflexivity.
  - apply (proj1 (proj2 (Hypothesize_floats_spec Demo.env
                           (Demo.start [0; 2047 * 2 ^ 52]%Z)))
             0%Z (2047 * 2 ^ 52)%Z []);
      [reflexivity | lia | reflexivity].
  - apply (proj2 (proj2 (Hypothesize_floats_spec Demo.env
                           (Demo.start [35; 0]%Z)))
             35%Z [0%Z]); [reflexivity | lia].
Defined.

(** X15: in the earlier notebook the filter ends with [assume(latex_str)]:
    a case it yields has markup that is not empty and that the printer
    returned for the expression drawn. *)
Theorem Hypothesize_latex_printable_expressions_Ok
  env expressions st expr latex_str st' :
  Hypothesize.latex_printable_expressions env expressions st
    = (Ok (expr, latex_str), st') ->
  latex_str <> EmptyString /\
  S_latex env expr = Returned latex_str /\
  expressions st = (Ok expr, st').
Proof.
  unfold Hypothesize.latex_printable_expressions. intros H.
  apply bind_Ok in H as (e & st1 & Hd & H).
  destruct (S_latex env e) as [s |] eqn:E; [| discriminate].
  destruct s as [| c s]; [discriminate |].
  cbn in H. inversion H; subst. repeat split; auto. discriminate.
Qed.

Lemma Hypothesize_latex_printable_expressions_Ok_witness :
  "a"%string <> EmptyString /\
  S_latex Demo.env (Symbol "a") = Returned "a"%string /\
  numeric_expressions Demo.env 1 (Demo.start [1; 0]%Z)
    = (Ok (Symbol "a"), Demo.start []).
Proof.
  apply (@Hypothesize_latex_printable_expressions_Ok Demo.env
           (numeric_expressions Demo.env 1) (Demo.start [1; 0]%Z)).
  reflexivity.
Defined.

(** X16: the test of the earlier notebook has no [assume(expr)]: it
    calls the parser on every case, once, and ends with a pass or a
    report, never discarded and never with another exception.  On a
    truthy expression both versions of the test give the same result
    and call the parser alike; on a falsy one the earlier version still
    compares, where the later one discards without parsing. *)
Theorem Hypothesize_test_latex_roundtrip_spec env expr latex_str pdf :
  let earlier := Hypothesize.test_latex_roundtrip env (expr, latex_str, pdf) in
  let later := test_latex_roundtrip env (expr, latex_str, pdf) in
  let same := equal_to_parsed env expr (parsed_or_absent env latex_str) in
  snd earlier = [latex_str] /\
  (same = true <-> fst earlier = Passes) /\
  (same = false <->
   fst earlier = Fails (expr, parsed_or_absent env latex_str, latex_str, pdf)) /\
  (truth env expr = Returned true -> earlier = later) /\
  (truth env expr = Returned false ->
   later = (Discarded, []) /\ fst earlier <> fst later).
Proof.
  unfold Hypothesize.test_latex_roundtrip, test_latex_roundtrip,
    parsed_or_absent.
  destruct (parse_latex env latex_str) as [parsed | z];
    cbn [equal_to_parsed];
    try destruct (expr_equal env expr parsed);
    cbn [fst snd]; repeat split; intros;
    repeat match goal with
           | H : truth _ _ = _ |- _ => rewrite H; clear H
           end;
    try discriminate; try reflexivity.
Qed.
